(** * function_app: the OneLake Iceberg catalog proxy

    A shallow embedding of [function_app.py]: the module-level configuration,
    [acquire_onelake_token] and the five HTTP-triggered handlers, followed by
    the properties the specification states about them.

    Python values that are either [None] or a [str] are [option string].
    Dictionaries ([os.environ], [req.params], the MSAL result) are [gmap]s.
    Effects (log lines, the MSAL calls, the upstream GET) are recorded in a
    trace; exceptions are the left summand of the result. *)

From Stdlib Require Import ZArith Ascii String DecimalString.
From stdpp Require Import base option list strings gmap.

Open Scope Z_scope.

(** ** Python values *)

(** Truth value of an object that is [None] or a [str]. *)
Definition truthy (v : option string) : bool :=
  match v with
  | Some s => negb (String.eqb s EmptyString)
  | None => false
  end.

(** [a or b]. *)
Definition py_or (a b : option string) : option string :=
  if truthy a then a else b.

(** [str(v)], which is also what an f-string placeholder [{v}] produces. *)
Definition py_str (v : option string) : string :=
  match v with
  | Some s => s
  | None => "None"
  end.

(** Values produced by [Response.json()]. *)
#[warnings="-register-all"]
Inductive json : Type :=
| JNull
| JBool (b : bool)
| JInt (n : Z)
| JFloat (literal : string)
| JStr (s : string)
| JList (items : list json)
| JDict (items : list (string * json)).

(** ** The libraries the module imports *)

Module requests.

Record Response : Type := mkResponse {
  status_code : Z;
  text : string
}.

(** The condition under which [Response.raise_for_status] raises. *)
Definition is_error_status (r : Response) : bool :=
  (400 <=? status_code r) && (status_code r <? 600).

End requests.

Module func.

Record HttpRequest : Type := mkHttpRequest {
  params : gmap string string
}.

(** [func.HttpResponse(body, status_code=..., mimetype=...)]; [mimetype]
    is [None] where the call does not pass the keyword. *)
Record HttpResponse : Type := mkHttpResponse {
  body : string;
  status_code : Z;
  mimetype : option string
}.

End func.

Module msal.

(** [msal.ConfidentialClientApplication(client_id, authority=...,
    client_credential=...)]. *)
Record ConfidentialClientApplication : Type := mkApp {
  client_id : option string;
  authority : option string;
  client_credential : option string
}.

End msal.

(** Exceptions, by the class an [except] clause tests. Every constructor is
    a subclass of [Exception]. *)
Inductive PyExc : Type :=
| RuntimeError (msg : string)
| ValueError (msg : string)
| RequestException (msg : string) (response : option requests.Response)
| OtherException (msg : string).

Definition is_Exception (e : PyExc) : bool := true.

Definition is_RequestException (e : PyExc) : bool :=
  match e with
  | RequestException _ _ => true
  | _ => false
  end.

Definition is_ValueError (e : PyExc) : bool :=
  match e with
  | ValueError _ => true
  | _ => false
  end.

(** [str(e)]. *)
Definition exc_str (e : PyExc) : string :=
  match e with
  | RuntimeError m | ValueError m | RequestException m _ | OtherException m => m
  end.

(** [getattr(e, 'response', None)]. *)
Definition getattr_response (e : PyExc) : option requests.Response :=
  match e with
  | RequestException _ r => r
  | _ => None
  end.

(** Pure library functions whose text is not part of the module. *)
Class PyRuntime : Type := {
  (** [str(d)] of the dictionary MSAL returns. *)
  str_dict : gmap string (option string) → string;
  (** The message of the [HTTPError] that [raise_for_status] builds. *)
  HTTPError_msg : requests.Response → string;
  (** [Response.json()] on a body: the parsed value or the exception. *)
  json_loads : string → PyExc + json;
  (** [json.dumps]. *)
  json_dumps : json → string
}.

(** ** Effects *)

Inductive Level : Type := INFO | WARNING | ERROR.

Inductive Event : Type :=
| Logged (level : Level) (line : string)
| MsalAppCreated (app : msal.ConfidentialClientApplication)
| MsalTokenRequested (app : msal.ConfidentialClientApplication)
    (scopes : list string)
| HttpGet (url : string) (headers : list (string * string)) (timeout : Z).

(** What lies outside the process: the identity provider behind MSAL and
    the upstream catalog behind [requests.get]. *)
Record World : Type := mkWorld {
  msal_init : msal.ConfidentialClientApplication → option PyExc;
  msal_acquire_token_for_client :
    msal.ConfidentialClientApplication → list string →
    PyExc + gmap string (option string);
  http_get : string → list (string * string) → Z → PyExc + requests.Response
}.

(** A computation: the events it performed, then an exception or a value. *)
Definition M (A : Type) : Type := list Event * (PyExc + A).

#[global] Instance M_ret : MRet M := λ A a, ([], inr a).

#[global] Instance M_bind : MBind M := λ A B k m,
  match m.2 with
  | inl e => (m.1, inl e)
  | inr a => (m.1 ++ (k a).1, (k a).2)
  end.

Definition raise {A : Type} (e : PyExc) : M A := ([], inl e).

Definition perform {A : Type} (ev : Event) (outcome : PyExc + A) : M A :=
  ([ev], outcome).

(** [try: m  except <class> as e: handler e]. *)
Definition try_except {A : Type} (m : M A) (catches : PyExc → bool)
    (handler : PyExc → M A) : M A :=
  match m.2 with
  | inl e =>
      if catches e then (m.1 ++ (handler e).1, (handler e).2) else m
  | inr _ => m
  end.

Definition logging_info (line : string) : M unit :=
  perform (Logged INFO line) (inr tt).
Definition logging_warning (line : string) : M unit :=
  perform (Logged WARNING line) (inr tt).
Definition logging_error (line : string) : M unit :=
  perform (Logged ERROR line) (inr tt).

Definition trace {A : Type} (m : M A) : list Event := m.1.
Definition result {A : Type} (m : M A) : PyExc + A := m.2.

Definition is_upstream_call (ev : Event) : bool :=
  match ev with
  | HttpGet _ _ _ => true
  | _ => false
  end.

(** Number of upstream GETs in a trace. *)
Definition upstream_calls (t : list Event) : nat :=
  length (filter (λ ev, is_upstream_call ev = true) t).

(** The URLs of the upstream GETs in a trace, in order. *)
Definition upstream_urls (t : list Event) : list string :=
  omap (λ ev, match ev with HttpGet url _ _ => Some url | _ => None end) t.

(** The scopes of the token requests in a trace, in order. *)
Definition requested_scopes (t : list Event) : list (list string) :=
  omap (λ ev, match ev with
              | MsalTokenRequested _ scopes => Some scopes
              | _ => None
              end) t.

(** ** Module-level configuration (lines 11-19) *)

Record Globals : Type := mkGlobals {
  TENANT_ID : option string;
  CLIENT_ID : option string;
  CLIENT_SECRET : option string;
  ONELAKE_SCOPE : string;
  ONELAKE_TEST_ENDPOINT : option string;
  AUTHORITY : option string;
  BaseURL : string
}.

(** The assignments the module performs on import, [environ] being
    [os.environ]. *)
Definition module_globals (environ : gmap string string) : Globals :=
  let TENANT_ID := py_or (environ !! "TENANT_ID") (environ !! "AZURE_TENANT_ID") in
  let CLIENT_ID := py_or (environ !! "CLIENT_ID") (environ !! "AZURE_CLIENT_ID") in
  let CLIENT_SECRET :=
    py_or (environ !! "CLIENT_SECRET") (environ !! "AZURE_CLIENT_SECRET") in
  let ONELAKE_SCOPE :=
    default "https://storage.azure.com/.default" (environ !! "ONELAKE_SCOPE") in
  let ONELAKE_TEST_ENDPOINT := environ !! "ONELAKE_TEST_ENDPOINT" in
  let AUTHORITY :=
    if truthy TENANT_ID
    then Some ("https://login.microsoftonline.com/" +:+ py_str TENANT_ID)
    else None in
  {| TENANT_ID := TENANT_ID;
     CLIENT_ID := CLIENT_ID;
     CLIENT_SECRET := CLIENT_SECRET;
     ONELAKE_SCOPE := ONELAKE_SCOPE;
     ONELAKE_TEST_ENDPOINT := ONELAKE_TEST_ENDPOINT;
     AUTHORITY := AUTHORITY;
     BaseURL := "https://onelake.table.fabric.microsoft.com/" |}.

(** ** Library calls, as effects *)

Definition ConfidentialClientApplication (w : World)
    (client_id authority client_credential : option string)
    : M msal.ConfidentialClientApplication :=
  let app := msal.mkApp client_id authority client_credential in
  perform (MsalAppCreated app)
    match msal_init w app with
    | Some e => inl e
    | None => inr app
    end.

Definition acquire_token_for_client (w : World)
    (app : msal.ConfidentialClientApplication) (scopes : list string)
    : M (gmap string (option string)) :=
  perform (MsalTokenRequested app scopes)
    (msal_acquire_token_for_client w app scopes).

Definition requests_get (w : World) (url : string)
    (headers : list (string * string)) (timeout : Z) : M requests.Response :=
  perform (HttpGet url headers timeout) (http_get w url headers timeout).

Section FunctionApp.

Context `{PyRuntime}.

(** [Response.raise_for_status()]. *)
Definition raise_for_status (r : requests.Response) : M unit :=
  if requests.is_error_status r
  then raise (RequestException (HTTPError_msg r) (Some r))
  else mret tt.

(** [Response.json()]. *)
Definition response_json (r : requests.Response) : M json :=
  ([], json_loads (requests.text r)).

(** ** [acquire_onelake_token] (lines 21-37) *)

Definition acquire_onelake_token (g : Globals) (w : World)
    : M (option string) :=
  if negb (truthy (TENANT_ID g) && truthy (CLIENT_ID g)
           && truthy (CLIENT_SECRET g))
  then
    raise (RuntimeError
      "TENANT_ID, CLIENT_ID and CLIENT_SECRET must be set in environment (local.settings.json for local dev).")
  else
    app ← ConfidentialClientApplication w
             (CLIENT_ID g) (AUTHORITY g) (CLIENT_SECRET g);
    result ← acquire_token_for_client w app
               ["https://storage.azure.com/.default"];
    match result !! "access_token" with
    | Some access_token => mret access_token
    | None =>
        logging_error ("MSAL token acquisition failed: " +:+ str_dict result);;
        raise (RuntimeError
          ("Failed to acquire token: " +:+
           match py_or (mjoin (result !! "error_description")) None with
           | Some description => description
           | None => str_dict result
           end))
    end.

(** ** The handlers

    A [return] inside the first [except] block leaves the function; the
    block's value is [inl] of that response, and [inr tables_response]
    when the [try] body completed. *)

(** [fn_get_irc_configuration] (lines 41-86). *)
Definition fn_get_irc_configuration (g : Globals) (w : World)
    (req : func.HttpRequest) : M func.HttpResponse :=
  logging_info "Python HTTP trigger function processed a request.";;
  let workspace := func.params req !! "workspace" in
  let dataitem := func.params req !! "dataitem" in
  let warehouse_id := "/" +:+ py_str workspace +:+ "/" +:+ py_str dataitem in
  token ← try_except (acquire_onelake_token g w) is_Exception
    (λ e,
      logging_warning ("Could not acquire OneLake token: " +:+ exc_str e);;
      mret None);
  let tables_url :=
    "https://onelake.dfs.fabric.microsoft.com/iceberg/v1/config?warehouse="
    +:+ warehouse_id in
  match token with
  | None =>
      logging_error "Token required for OneLake tables call but not available";;
      mret (func.mkHttpResponse
              "Authentication required for OneLake tables call" 401 None)
  | Some token =>
      let headers :=
        [("Authorization", "Bearer " +:+ token);
         ("Accept", "application/json")] in
      fetched ← try_except
        (tables_response ← requests_get w tables_url headers 30;
         raise_for_status tables_response;;
         mret (inr tables_response))
        is_RequestException
        (λ e,
          logging_error ("OneLake tables API request failed: " +:+ exc_str e);;
          let resp := getattr_response e in
          match resp with
          | Some resp =>
              try_except
                (mret (inl (func.mkHttpResponse (requests.text resp)
                              (requests.status_code resp) None)))
                is_Exception
                (λ _, mret (inl (func.mkHttpResponse (exc_str e) 502 None)))
          | None => mret (inl (func.mkHttpResponse (exc_str e) 502 None))
          end);
      match fetched with
      | inl response => mret response
      | inr tables_response =>
          try_except
            (tables ← response_json tables_response;
             mret (func.mkHttpResponse (json_dumps tables)
                     (requests.status_code tables_response)
                     (Some "application/json")))
            is_ValueError
            (λ _, mret (func.mkHttpResponse (requests.text tables_response)
                          (requests.status_code tables_response) None))
      end
  end.

(** [fn_list_namespaces] (lines 91-136). *)
Definition fn_list_namespaces (g : Globals) (w : World)
    (req : func.HttpRequest) : M func.HttpResponse :=
  logging_info "Python HTTP trigger function processed a request.";;
  let workspace := func.params req !! "workspace" in
  let dataitem := func.params req !! "dataitem" in
  let warehouse_id := "/" +:+ py_str workspace +:+ "/" +:+ py_str dataitem in
  token ← try_except (acquire_onelake_token g w) is_Exception
    (λ e,
      logging_warning ("Could not acquire OneLake token: " +:+ exc_str e);;
      mret None);
  let tables_url :=
    "https://onelake.dfs.fabric.microsoft.com/iceberg/v1/" +:+ warehouse_id
    +:+ "/namespaces" in
  match token with
  | None =>
      logging_error "Token required for OneLake tables call but not available";;
      mret (func.mkHttpResponse
              "Authentication required for OneLake tables call" 401 None)
  | Some token =>
      let headers :=
        [("Authorization", "Bearer " +:+ token);
         ("Accept", "application/json")] in
      fetched ← try_except
        (tables_response ← requests_get w tables_url headers 30;
         raise_for_status tables_response;;
         mret (inr tables_response))
        is_RequestException
        (λ e,
          logging_error ("OneLake tables API request failed: " +:+ exc_str e);;
          let resp := getattr_response e in
          match resp with
          | Some resp =>
              try_except
                (mret (inl (func.mkHttpResponse (requests.text resp)
                              (requests.status_code resp) None)))
                is_Exception
                (λ _, mret (inl (func.mkHttpResponse (exc_str e) 502 None)))
          | None => mret (inl (func.mkHttpResponse (exc_str e) 502 None))
          end);
      match fetched with
      | inl response => mret response
      | inr tables_response =>
          try_except
            (tables ← response_json tables_response;
             mret (func.mkHttpResponse (json_dumps tables)
                     (requests.status_code tables_response)
                     (Some "application/json")))
            is_ValueError
            (λ _, mret (func.mkHttpResponse (requests.text tables_response)
                          (requests.status_code tables_response) None))
      end
  end.

(** [fn_get_schema_details] (lines 140-186). *)
Definition fn_get_schema_details (g : Globals) (w : World)
    (req : func.HttpRequest) : M func.HttpResponse :=
  logging_info "Python HTTP trigger function processed a request.";;
  let workspace := func.params req !! "workspace" in
  let dataitem := func.params req !! "dataitem" in
  let schema := func.params req !! "schema" in
  let warehouse_id := "/" +:+ py_str workspace +:+ "/" +:+ py_str dataitem in
  token ← try_except (acquire_onelake_token g w) is_Exception
    (λ e,
      logging_warning ("Could not acquire OneLake token: " +:+ exc_str e);;
      mret None);
  let tables_url :=
    "https://onelake.dfs.fabric.microsoft.com/iceberg/v1/" +:+ warehouse_id
    +:+ "/namespaces/" +:+ py_str schema in
  match token with
  | None =>
      logging_error "Token required for OneLake tables call but not available";;
      mret (func.mkHttpResponse
              "Authentication required for OneLake tables call" 401 None)
  | Some token =>
      let headers :=
        [("Authorization", "Bearer " +:+ token);
         ("Accept", "application/json")] in
      fetched ← try_except
        (tables_response ← requests_get w tables_url headers 30;
         raise_for_status tables_response;;
         mret (inr tables_response))
        is_RequestException
        (λ e,
          logging_error ("OneLake tables API request failed: " +:+ exc_str e);;
          let resp := getattr_response e in
          match resp with
          | Some resp =>
              try_except
                (mret (inl (func.mkHttpResponse (requests.text resp)
                              (requests.status_code resp) None)))
                is_Exception
                (λ _, mret (inl (func.mkHttpResponse (exc_str e) 502 None)))
          | None => mret (inl (func.mkHttpResponse (exc_str e) 502 None))
          end);
      match fetched with
      | inl response => mret response
      | inr tables_response =>
          try_except
            (tables ← response_json tables_response;
             mret (func.mkHttpResponse (json_dumps tables)
                     (requests.status_code tables_response)
                     (Some "application/json")))
            is_ValueError
            (λ _, mret (func.mkHttpResponse (requests.text tables_response)
                          (requests.status_code tables_response) None))
      end
  end.

(** [fn_read_iceberg_catalog] (lines 190-236). *)
Definition fn_read_iceberg_catalog (g : Globals) (w : World)
    (req : func.HttpRequest) : M func.HttpResponse :=
  logging_info "Python HTTP trigger function processed a request.";;
  let workspace := func.params req !! "workspace" in
  let dataitem := func.params req !! "dataitem" in
  let schema := func.params req !! "schema" in
  let warehouse_id := "/" +:+ py_str workspace +:+ "/" +:+ py_str dataitem in
  token ← try_except (acquire_onelake_token g w) is_Exception
    (λ e,
      logging_warning ("Could not acquire OneLake token: " +:+ exc_str e);;
      mret None);
  let tables_url :=
    "https://onelake.dfs.fabric.microsoft.com/iceberg/v1/" +:+ warehouse_id
    +:+ "/namespaces/" +:+ py_str schema +:+ "/tables" in
  match token with
  | None =>
      logging_error "Token required for OneLake tables call but not available";;
      mret (func.mkHttpResponse
              "Authentication required for OneLake tables call" 401 None)
  | Some token =>
      let headers :=
        [("Authorization", "Bearer " +:+ token);
         ("Accept", "application/json")] in
      fetched ← try_except
        (tables_response ← requests_get w tables_url headers 30;
         raise_for_status tables_response;;
         mret (inr tables_response))
        is_RequestException
        (λ e,
          logging_error ("OneLake tables API request failed: " +:+ exc_str e);;
          let resp := getattr_response e in
          match resp with
          | Some resp =>
              try_except
                (mret (inl (func.mkHttpResponse (requests.text resp)
                              (requests.status_code resp) None)))
                is_Exception
                (λ _, mret (inl (func.mkHttpResponse (exc_str e) 502 None)))
          | None => mret (inl (func.mkHttpResponse (exc_str e) 502 None))
          end);
      match fetched with
      | inl response => mret response
      | inr tables_response =>
          try_except
            (tables ← response_json tables_response;
             mret (func.mkHttpResponse (json_dumps tables)
                     (requests.status_code tables_response)
                     (Some "application/json")))
            is_ValueError
            (λ _, mret (func.mkHttpResponse (requests.text tables_response)
                          (requests.status_code tables_response) None))
      end
  end.

(** [fn_read_tables] (lines 240-287). *)
Definition fn_read_tables (g : Globals) (w : World)
    (req : func.HttpRequest) : M func.HttpResponse :=
  logging_info "Python HTTP trigger function processed a request.";;
  let workspace := func.params req !! "workspace" in
  let dataitem := func.params req !! "dataitem" in
  let schema := func.params req !! "schema" in
  let table := func.params req !! "table" in
  let warehouse_id := "/" +:+ py_str workspace +:+ "/" +:+ py_str dataitem in
  token ← try_except (acquire_onelake_token g w) is_Exception
    (λ e,
      logging_warning ("Could not acquire OneLake token: " +:+ exc_str e);;
      mret None);
  let tables_url :=
    "https://onelake.dfs.fabric.microsoft.com/iceberg/v1/" +:+ warehouse_id
    +:+ "/namespaces/" +:+ py_str schema +:+ "/tables/" +:+ py_str table in
  match token with
  | None =>
      logging_error "Token required for OneLake tables call but not available";;
      mret (func.mkHttpResponse
              "Authentication required for OneLake tables call" 401 None)
  | Some token =>
      let headers :=
        [("Authorization", "Bearer " +:+ token);
         ("Accept", "application/json")] in
      fetched ← try_except
        (tables_response ← requests_get w tables_url headers 30;
         raise_for_status tables_response;;
         mret (inr tables_response))
        is_RequestException
        (λ e,
          logging_error ("OneLake tables API request failed: " +:+ exc_str e);;
          let resp := getattr_response e in
          match resp with
          | Some resp =>
              try_except
                (mret (inl (func.mkHttpResponse (requests.text resp)
                              (requests.status_code resp) None)))
                is_Exception
                (λ _, mret (inl (func.mkHttpResponse (exc_str e) 502 None)))
          | None => mret (inl (func.mkHttpResponse (exc_str e) 502 None))
          end);
      match fetched with
      | inl response => mret response
      | inr tables_response =>
          try_except
            (tables ← response_json tables_response;
             mret (func.mkHttpResponse (json_dumps tables)
                     (requests.status_code tables_response)
                     (Some "application/json")))
            is_ValueError
            (λ _, mret (func.mkHttpResponse (requests.text tables_response)
                          (requests.status_code tables_response) None))
      end
  end.

End FunctionApp.

(** The routes registered with [@app.route]. *)
Inductive Route : Type :=
| route_fn_get_irc_configuration
| route_fn_list_namespaces
| route_fn_get_schema_details
| route_fn_read_iceberg_catalog
| route_fn_read_tables.

(** The function the platform invokes for a route. *)
Definition handler `{PyRuntime} (r : Route)
    : Globals → World → func.HttpRequest → M func.HttpResponse :=
  match r with
  | route_fn_get_irc_configuration => fn_get_irc_configuration
  | route_fn_list_namespaces => fn_list_namespaces
  | route_fn_get_schema_details => fn_get_schema_details
  | route_fn_read_iceberg_catalog => fn_read_iceberg_catalog
  | route_fn_read_tables => fn_read_tables
  end.

(** ** Vocabulary of the statements

    What a handler computes before and after its upstream call, named so
    that the statements below can refer to it. [handler_proxy] shows that
    the five handlers are these definitions put together. *)

(** The class of an exception. *)
Inductive ExcClass : Type :=
| class_RuntimeError
| class_ValueError
| class_RequestException
| class_OtherException.

Definition exc_class (e : PyExc) : ExcClass :=
  match e with
  | RuntimeError _ => class_RuntimeError
  | ValueError _ => class_ValueError
  | RequestException _ _ => class_RequestException
  | OtherException _ => class_OtherException
  end.

(** The value of [tables_url] in the handler of each route. *)
Definition tables_url (r : Route) (req : func.HttpRequest) : string :=
  let workspace := func.params req !! "workspace" in
  let dataitem := func.params req !! "dataitem" in
  let schema := func.params req !! "schema" in
  let table := func.params req !! "table" in
  let warehouse_id := "/" +:+ py_str workspace +:+ "/" +:+ py_str dataitem in
  match r with
  | route_fn_get_irc_configuration =>
      "https://onelake.dfs.fabric.microsoft.com/iceberg/v1/config?warehouse="
      +:+ warehouse_id
  | route_fn_list_namespaces =>
      "https://onelake.dfs.fabric.microsoft.com/iceberg/v1/" +:+ warehouse_id
      +:+ "/namespaces"
  | route_fn_get_schema_details =>
      "https://onelake.dfs.fabric.microsoft.com/iceberg/v1/" +:+ warehouse_id
      +:+ "/namespaces/" +:+ py_str schema
  | route_fn_read_iceberg_catalog =>
      "https://onelake.dfs.fabric.microsoft.com/iceberg/v1/" +:+ warehouse_id
      +:+ "/namespaces/" +:+ py_str schema +:+ "/tables"
  | route_fn_read_tables =>
      "https://onelake.dfs.fabric.microsoft.com/iceberg/v1/" +:+ warehouse_id
      +:+ "/namespaces/" +:+ py_str schema +:+ "/tables/" +:+ py_str table
  end.

(** The value of [headers] in every handler. *)
Definition request_headers (token : string) : list (string * string) :=
  [("Authorization", "Bearer " +:+ token); ("Accept", "application/json")].

(** The outcome of the upstream GET a handler performs once it holds
    [token]. *)
Definition upstream_outcome (w : World) (r : Route) (req : func.HttpRequest)
    (token : string) : PyExc + requests.Response :=
  http_get w (tables_url r req) (request_headers token) 30.

(** The response every handler returns when it holds no token. *)
Definition authentication_required : func.HttpResponse :=
  func.mkHttpResponse "Authentication required for OneLake tables call" 401 None.

(** What a handler does with the outcome of its upstream GET. *)
Definition relay `{PyRuntime} (outcome : PyExc + requests.Response)
    : M func.HttpResponse :=
  match outcome with
  | inl e =>
      if is_RequestException e then
        ([Logged ERROR ("OneLake tables API request failed: " +:+ exc_str e)],
         inr match getattr_response e with
             | Some resp =>
                 func.mkHttpResponse (requests.text resp)
                   (requests.status_code resp) None
             | None => func.mkHttpResponse (exc_str e) 502 None
             end)
      else ([], inl e)
  | inr resp =>
      if requests.is_error_status resp then
        ([Logged ERROR
            ("OneLake tables API request failed: " +:+ HTTPError_msg resp)],
         inr (func.mkHttpResponse (requests.text resp)
                (requests.status_code resp) None))
      else
        match json_loads (requests.text resp) with
        | inr tables =>
            ([], inr (func.mkHttpResponse (json_dumps tables)
                        (requests.status_code resp) (Some "application/json")))
        | inl e =>
            if is_ValueError e then
              ([], inr (func.mkHttpResponse (requests.text resp)
                          (requests.status_code resp) None))
            else ([], inl e)
        end
  end.

(** What every handler does once [tables_url] is built. *)
Definition proxy `{PyRuntime} (g : Globals) (w : World) (url : string)
    : M func.HttpResponse :=
  let acquired := acquire_onelake_token g w in
  let start :=
    Logged INFO "Python HTTP trigger function processed a request."
    :: trace acquired in
  match result acquired with
  | inl e =>
      (start ++
       [Logged WARNING ("Could not acquire OneLake token: " +:+ exc_str e);
        Logged ERROR "Token required for OneLake tables call but not available"],
       inr authentication_required)
  | inr None =>
      (start ++
       [Logged ERROR "Token required for OneLake tables call but not available"],
       inr authentication_required)
  | inr (Some token) =>
      let outcome := http_get w url (request_headers token) 30 in
      (start ++ HttpGet url (request_headers token) 30 :: trace (relay outcome),
       result (relay outcome))
  end.

(** The upstream path the interface table of the specification gives for a
    route, [warehouse] being the warehouse identifier. *)
Definition documented_path (r : Route) (warehouse schema table : string)
    : string :=
  match r with
  | route_fn_get_irc_configuration =>
      "/iceberg/v1/config?warehouse=" +:+ warehouse
  | route_fn_list_namespaces =>
      "/iceberg/v1/" +:+ warehouse +:+ "/namespaces"
  | route_fn_get_schema_details =>
      "/iceberg/v1/" +:+ warehouse +:+ "/namespaces/" +:+ schema
  | route_fn_read_iceberg_catalog =>
      "/iceberg/v1/" +:+ warehouse +:+ "/namespaces/" +:+ schema +:+ "/tables"
  | route_fn_read_tables =>
      "/iceberg/v1/" +:+ warehouse +:+ "/namespaces/" +:+ schema
      +:+ "/tables/" +:+ table
  end.

(** The test of line 23 succeeds: all three credentials are set. *)
Definition credentials_set (g : Globals) : bool :=
  truthy (TENANT_ID g) && truthy (CLIENT_ID g) && truthy (CLIENT_SECRET g).

(** [requests.get] raises nothing but [RequestException] and its
    subclasses, as the library documents. *)
Definition requests_contract (w : World) : Prop :=
  ∀ url headers timeout e,
    http_get w url headers timeout = inl e → is_RequestException e = true.



(** The upstream GETs in a trace, with their headers and timeout. *)
Definition upstream_gets (t : list Event) : list Event :=
  filter (λ ev, is_upstream_call ev = true) t.

Definition is_msal_call (ev : Event) : bool :=
  match ev with
  | MsalAppCreated _ | MsalTokenRequested _ _ => true
  | _ => false
  end.

(** The log lines in a trace, in order. *)
Definition log_lines (t : list Event) : list (Level * string) :=
  omap (λ ev, match ev with
              | Logged level line => Some (level, line)
              | _ => None
              end) t.

(** The query parameters the handler of a route reads with
    [req.params.get]. *)
Definition read_params (r : Route) : list string :=
  match r with
  | route_fn_get_irc_configuration | route_fn_list_namespaces =>
      ["workspace"; "dataitem"]
  | route_fn_get_schema_details | route_fn_read_iceberg_catalog =>
      ["workspace"; "dataitem"; "schema"]
  | route_fn_read_tables => ["workspace"; "dataitem"; "schema"; "table"]
  end.

(** The environment variables lines 12 to 14 read. *)
Definition credential_variables : list string :=
  ["TENANT_ID"; "AZURE_TENANT_ID"; "CLIENT_ID"; "AZURE_CLIENT_ID";
   "CLIENT_SECRET"; "AZURE_CLIENT_SECRET"].

(** Each credential has a non-empty value in one of its two variables. *)
Definition credentials_in (environ : gmap string string) : bool :=
  (truthy (environ !! "TENANT_ID") || truthy (environ !! "AZURE_TENANT_ID"))
  && (truthy (environ !! "CLIENT_ID") || truthy (environ !! "AZURE_CLIENT_ID"))
  && (truthy (environ !! "CLIENT_SECRET")
      || truthy (environ !! "AZURE_CLIENT_SECRET")).

(** The message of the [RuntimeError] of line 24. *)
Definition credentials_message : string :=
  "TENANT_ID, CLIENT_ID and CLIENT_SECRET must be set in environment (local.settings.json for local dev).".

(** ** A concrete runtime and concrete worlds for the examples

    The runtime reads and writes the fragment of JSON without escapes and
    fractions, which is all the examples use. *)

Module Sample.

Definition dquote : string := String "034"%char EmptyString.

Definition string_of_Z (n : Z) : string :=
  NilZero.string_of_int (Z.to_int n).

Definition is_space (c : ascii) : bool :=
  bool_decide (c = " "%char) || bool_decide (c = "010"%char)
  || bool_decide (c = "009"%char) || bool_decide (c = "013"%char).

Fixpoint skip_space (s : string) : string :=
  match s with
  | String c rest => if is_space c then skip_space rest else s
  | EmptyString => s
  end.

(** The characters up to the closing quote, and what follows it. *)
Fixpoint read_string (s : string) : option (string * string) :=
  match s with
  | EmptyString => None
  | String c rest =>
      if bool_decide (c = "034"%char) then Some (EmptyString, rest)
      else if bool_decide (c = "\"%char) then None
      else '(chars, rest') ← read_string rest; Some (String c chars, rest')
  end.

Definition digit_value (c : ascii) : option Z :=
  let n := Z.of_nat (nat_of_ascii c) in
  if (48 <=? n) && (n <=? 57) then Some (n - 48) else None.

Fixpoint read_digits (acc : Z) (s : string) : Z * string :=
  match s with
  | String c rest =>
      match digit_value c with
      | Some d => read_digits (10 * acc + d) rest
      | None => (acc, s)
      end
  | EmptyString => (acc, s)
  end.

Definition read_number (s : string) : option (Z * string) :=
  match s with
  | String c rest =>
      match digit_value c with
      | Some d => Some (read_digits d rest)
      | None => None
      end
  | EmptyString => None
  end.

Section Sequences.

Context {A : Type} (read_item : string → option (A * string)).
Context (closing : ascii).

(** Items separated by commas, up to [closing]. *)
Fixpoint read_items (fuel : nat) (s : string) : option (list A * string) :=
  match fuel with
  | O => None
  | S fuel =>
      '(item, rest) ← read_item s;
      match skip_space rest with
      | String c rest' =>
          if bool_decide (c = ","%char) then
            '(items, rest'') ← read_items fuel rest';
            Some (item :: items, rest'')
          else if bool_decide (c = closing) then Some ([item], rest')
          else None
      | EmptyString => None
      end
  end.

Definition read_sequence (fuel : nat) (s : string)
    : option (list A * string) :=
  match skip_space s with
  | String c rest =>
      if bool_decide (c = closing) then Some ([], rest)
      else read_items fuel s
  | EmptyString => None
  end.

End Sequences.

Definition read_member (read_value : string → option (json * string))
    (s : string) : option ((string * json) * string) :=
  match skip_space s with
  | String c rest =>
      if bool_decide (c = "034"%char) then
        '(key, rest') ← read_string rest;
        match skip_space rest' with
        | String c' rest'' =>
            if bool_decide (c' = ":"%char) then
              '(value, rest''') ← read_value rest'';
              Some ((key, value), rest''')
            else None
        | EmptyString => None
        end
      else None
  | EmptyString => None
  end.

Fixpoint read_value (fuel : nat) (s : string) : option (json * string) :=
  match fuel with
  | O => None
  | S fuel =>
      match skip_space s with
      | String "n" (String "u" (String "l" (String "l" rest))) =>
          Some (JNull, rest)
      | String "t" (String "r" (String "u" (String "e" rest))) =>
          Some (JBool true, rest)
      | String "f" (String "a" (String "l" (String "s" (String "e" rest)))) =>
          Some (JBool false, rest)
      | String "034" rest =>
          '(chars, rest') ← read_string rest; Some (JStr chars, rest')
      | String "[" rest =>
          '(items, rest') ← read_sequence (read_value fuel) "]" fuel rest;
          Some (JList items, rest')
      | String "{" rest =>
          '(items, rest') ←
            read_sequence (read_member (read_value fuel)) "}" fuel rest;
          Some (JDict items, rest')
      | String "-" rest =>
          '(n, rest') ← read_number rest; Some (JInt (- n), rest')
      | digits =>
          '(n, rest') ← read_number digits; Some (JInt n, rest')
      end
  end.

Definition loads (s : string) : PyExc + json :=
  match read_value (String.length s) s with
  | Some (value, rest) =>
      match skip_space rest with
      | EmptyString => inr value
      | _ => inl (ValueError "Extra data")
      end
  | None => inl (ValueError "Expecting value")
  end.

Definition join (sep : string) (parts : list string) : string :=
  String.concat sep parts.

#[warnings="-register-all"]
Fixpoint dumps (value : json) : string :=
  match value with
  | JNull => "null"
  | JBool true => "true"
  | JBool false => "false"
  | JInt n => string_of_Z n
  | JFloat literal => literal
  | JStr s => dquote +:+ s +:+ dquote
  | JList items => "[" +:+ join ", " (map dumps items) +:+ "]"
  | JDict items =>
      "{" +:+
      join ", "
        (map (λ member, dquote +:+ member.1 +:+ dquote +:+ ": "
                         +:+ dumps member.2) items)
      +:+ "}"
  end.

Definition repr (v : option string) : string :=
  match v with
  | Some s => "'" +:+ s +:+ "'"
  | None => "None"
  end.

Definition runtime : PyRuntime := {|
  str_dict d :=
    "{" +:+
    join ", " (map (λ item, repr (Some item.1) +:+ ": " +:+ repr item.2)
                   (map_to_list d))
    +:+ "}";
  HTTPError_msg r := string_of_Z (requests.status_code r) +:+ " Error";
  json_loads := loads;
  json_dumps := dumps
|}.

(** Credentials are configured. *)
Definition environ : gmap string string :=
  list_to_map [("TENANT_ID", "contoso"); ("CLIENT_ID", "app-1");
               ("CLIENT_SECRET", "s3cret")].

(** Credentials are configured, and so is a scope of the caller's own. *)
Definition environ_scoped : gmap string string :=
  <["ONELAKE_SCOPE" := "https://example.org/.default"]> environ.

(** A world: what the identity provider answers and what the upstream
    answers to a GET of each URL. *)
Definition world (issued : PyExc + gmap string (option string))
    (upstream : string → PyExc + requests.Response) : World :=
  {| msal_init _ := None;
     msal_acquire_token_for_client _ _ := issued;
     http_get url _ _ := upstream url |}.

Definition token_issued : PyExc + gmap string (option string) :=
  inr (list_to_map [("access_token", Some "tok"); ("token_type", Some "Bearer")]).

Definition token_refused : PyExc + gmap string (option string) :=
  inr (list_to_map [("error", Some "invalid_client");
                    ("error_description", Some "AADSTS7000215: Invalid client secret")]).

Definition request (ps : list (string * string)) : func.HttpRequest :=
  func.mkHttpRequest (list_to_map ps).

Definition request_table : func.HttpRequest :=
  request [("workspace", "ws1"); ("dataitem", "item1.Lakehouse");
           ("schema", "s1"); ("table", "t1")].

(** An object with the one member [ok], true, written without spaces. *)
Definition json_ok : string := "{" +:+ dquote +:+ "ok" +:+ dquote +:+ ":true}".

(** A token is issued and the upstream answers 200 with [json_ok]. *)
Definition world_ok : World :=
  world token_issued (λ _, inr (requests.mkResponse 200 json_ok)).

(** A token is issued and the upstream answers 200 with plain text. *)
Definition world_text : World :=
  world token_issued (λ _, inr (requests.mkResponse 200 "hello")).

(** A token is issued and the upstream answers 404. *)
Definition world_not_found : World :=
  world token_issued (λ _, inr (requests.mkResponse 404 "not found")).

(** A token is issued and the upstream cannot be reached. *)
Definition world_unreachable : World :=
  world token_issued (λ _, inl (RequestException "Connection refused" None)).

(** The identity provider refuses the client. *)
Definition world_refused : World :=
  world token_refused (λ _, inr (requests.mkResponse 200 json_ok)).

(** A token is issued and the GET fails outside [requests]' own classes. *)
Definition world_get_crashes : World :=
  world token_issued (λ _, inl (OtherException "out of memory")).

(** MSAL cannot create the application. *)
Definition world_msal_down : World :=
  {| msal_init _ := Some (ValueError "Unable to get authority configuration");
     msal_acquire_token_for_client _ _ := token_issued;
     http_get _ _ _ := inr (requests.mkResponse 200 json_ok) |}.

(** The application [environ] configures. *)
Definition app : msal.ConfidentialClientApplication :=
  msal.mkApp (Some "app-1") (Some "https://login.microsoftonline.com/contoso")
    (Some "s3cret").

(** [request_table] without its [table] parameter. *)
Definition request_no_table : func.HttpRequest :=
  request [("workspace", "ws1"); ("dataitem", "item1.Lakehouse");
           ("schema", "s1")].

End Sample.

(** * Properties *)

Section Properties.

Context `{PyRuntime}.

(** [trace] and [result] of a computation given as a pair. *)
Ltac observe :=
  repeat match goal with
  | |- context [trace (?t, ?r)] => change (trace (t, r)) with t
  | |- context [result (?t, ?r)] => change (result (t, r)) with r
  end.

(** ** The handlers, summarised *)

Lemma handler_proxy (r : Route) (g : Globals) (w : World)
    (req : func.HttpRequest) :
  handler r g w req = proxy g w (tables_url r req).
Proof.
  unfold proxy, trace, result.
  destruct r; cbn [handler tables_url];
    [ unfold fn_get_irc_configuration
    | unfold fn_list_namespaces
    | unfold fn_get_schema_details
    | unfold fn_read_iceberg_catalog
    | unfold fn_read_tables ];
    (destruct (acquire_onelake_token g w) as [t [e | [token |]]];
     [ cbn -[append]; by rewrite <- app_assoc
     | unfold relay, request_headers, requests_get, perform,
         raise_for_status, response_json;
       cbn -[append];
       match goal with
       | |- context [http_get w ?url ?hs ?n] =>
           destruct (http_get w url hs n) as [[| | ? [resp |] |] | resp]
       end;
       cbn -[append];
       try destruct (requests.is_error_status resp);
       cbn -[append];
       try (destruct (json_loads (requests.text resp)) as [[| | |] | tables];
            cbn -[append]);
       by rewrite ?app_nil_r, <- ?app_assoc
     | reflexivity ]).
Qed.
Lemma proxy_raised (g : Globals) (w : World) (url : string) (e : PyExc) :
  result (acquire_onelake_token g w) = inl e →
  proxy g w url =
    (Logged INFO "Python HTTP trigger function processed a request."
     :: trace (acquire_onelake_token g w) ++
     [Logged WARNING ("Could not acquire OneLake token: " +:+ exc_str e);
      Logged ERROR "Token required for OneLake tables call but not available"],
     inr authentication_required).
Proof. intros Hacq. unfold proxy. cbv zeta. by rewrite Hacq. Qed.

Lemma proxy_none (g : Globals) (w : World) (url : string) :
  result (acquire_onelake_token g w) = inr None →
  proxy g w url =
    (Logged INFO "Python HTTP trigger function processed a request."
     :: trace (acquire_onelake_token g w) ++
     [Logged ERROR "Token required for OneLake tables call but not available"],
     inr authentication_required).
Proof. intros Hacq. unfold proxy. cbv zeta. by rewrite Hacq. Qed.

Lemma proxy_token (g : Globals) (w : World) (url token : string) :
  result (acquire_onelake_token g w) = inr (Some token) →
  proxy g w url =
    (Logged INFO "Python HTTP trigger function processed a request."
     :: trace (acquire_onelake_token g w) ++
     HttpGet url (request_headers token) 30
     :: trace (relay (http_get w url (request_headers token) 30)),
     result (relay (http_get w url (request_headers token) 30))).
Proof. intros Hacq. unfold proxy. cbv zeta. by rewrite Hacq. Qed.

(** ** [acquire_onelake_token] *)

Lemma acquire_unconfigured (g : Globals) (w : World) :
  credentials_set g = false →
  acquire_onelake_token g w =
    ([], inl (RuntimeError
      "TENANT_ID, CLIENT_ID and CLIENT_SECRET must be set in environment (local.settings.json for local dev).")).
Proof.
  unfold credentials_set, acquire_onelake_token. by intros ->.
Qed.

(** The events of a token acquisition are MSAL calls and log lines. *)
Lemma acquire_trace (g : Globals) (w : World) :
  let app := msal.mkApp (CLIENT_ID g) (AUTHORITY g) (CLIENT_SECRET g) in
  let asked :=
    MsalTokenRequested app ["https://storage.azure.com/.default"] in
  trace (acquire_onelake_token g w) = []
  ∨ trace (acquire_onelake_token g w) = [MsalAppCreated app]
  ∨ trace (acquire_onelake_token g w) = [MsalAppCreated app; asked]
  ∨ ∃ line,
      trace (acquire_onelake_token g w) =
        [MsalAppCreated app; asked; Logged ERROR line].
Proof.
  unfold acquire_onelake_token, ConfidentialClientApplication,
    acquire_token_for_client, perform, trace.
  destruct (negb _); [by left |].
  destruct (msal_init w _); cbn -[append]; [by right; left |].
  destruct (msal_acquire_token_for_client w _ _) as [e | d];
    cbn -[append]; [by right; right; left |].
  destruct (d !! "access_token"); cbn -[append]; [by right; right; left |].
  right; right; right. by eexists.
Qed.

Lemma acquire_no_upstream_call (g : Globals) (w : World) :
  upstream_urls (trace (acquire_onelake_token g w)) = [].
Proof.
  destruct (acquire_trace g w) as [-> | [-> | [-> | [line ->]]]]; done.
Qed.

Lemma acquire_scopes (g : Globals) (w : World) :
  Forall (λ scopes, scopes = ["https://storage.azure.com/.default"])
    (requested_scopes (trace (acquire_onelake_token g w))).
Proof.
  destruct (acquire_trace g w) as [-> | [-> | [-> | [line ->]]]];
    cbn; repeat constructor.
Qed.

Lemma acquire_scopes_exact (g : Globals) (w : World) :
  requested_scopes (trace (acquire_onelake_token g w)) =
    if credentials_set g then
      match msal_init w (msal.mkApp (CLIENT_ID g) (AUTHORITY g)
                           (CLIENT_SECRET g)) with
      | None => [["https://storage.azure.com/.default"]]
      | Some _ => []
      end
    else [].
Proof.
  unfold acquire_onelake_token, ConfidentialClientApplication,
    acquire_token_for_client, perform, trace.
  fold (credentials_set g). destruct (credentials_set g); [| done].
  cbn -[append]. destruct (msal_init w _); cbn -[append]; [done |].
  destruct (msal_acquire_token_for_client w _ _) as [e | d];
    cbn -[append]; [done |].
  by destruct (d !! "access_token").
Qed.

Lemma upstream_urls_app (t1 t2 : list Event) :
  upstream_urls (t1 ++ t2) = upstream_urls t1 ++ upstream_urls t2.
Proof. unfold upstream_urls. apply omap_app. Qed.

Lemma upstream_calls_urls (t : list Event) :
  upstream_calls t = length (upstream_urls t).
Proof.
  unfold upstream_calls, upstream_urls.
  induction t as [| [] t IH]; cbn in *; [done | ..];
    case_decide; first [done | exact IH | cbn; f_equal; exact IH].
Qed.

Lemma relay_no_upstream_call (outcome : PyExc + requests.Response) :
  upstream_urls (trace (relay outcome)) = [].
Proof.
  unfold relay.
  repeat (case_match; try done).
Qed.

(** A handler calls upstream at most once, and only at [tables_url]. *)
Lemma handler_upstream_urls (r : Route) (g : Globals) (w : World)
    (req : func.HttpRequest) :
  upstream_urls (trace (handler r g w req)) =
    match result (acquire_onelake_token g w) with
    | inr (Some _) => [tables_url r req]
    | _ => []
    end.
Proof.
  rewrite handler_proxy.
  destruct (result (acquire_onelake_token g w)) as [e | [token |]] eqn:Hacq.
  - rewrite (proxy_raised _ _ _ _ Hacq). observe.
    change (Logged INFO ?l :: ?t) with ([Logged INFO l] ++ t).
    by rewrite !upstream_urls_app, acquire_no_upstream_call.
  - rewrite (proxy_token _ _ _ _ Hacq). observe.
    change (Logged INFO ?l :: ?t) with ([Logged INFO l] ++ t).
    change (HttpGet ?u ?h ?n :: ?t) with ([HttpGet u h n] ++ t).
    by rewrite !upstream_urls_app, acquire_no_upstream_call,
      relay_no_upstream_call.
  - rewrite (proxy_none _ _ _ Hacq). observe.
    change (Logged INFO ?l :: ?t) with ([Logged INFO l] ++ t).
    by rewrite !upstream_urls_app, acquire_no_upstream_call.
Qed.

(** ** Token acquisition fails or yields nothing *)

(** C1, as amended. For every route and every request, if token
    acquisition raises or returns [None], the handler returns HTTP 401
    with the body "Authentication required for OneLake tables call"
    (not the bare "Authentication required") and performs no upstream
    GET. The exception is not propagated: it is logged at warning level,
    and the 401 comes from the later test of [token], which logs
    "Token required ..." whether or not an exception was raised. *)
Theorem C1_no_token_401 (r : Route) (g : Globals) (w : World)
    (req : func.HttpRequest) :
  (∃ e, result (acquire_onelake_token g w) = inl e)
  ∨ result (acquire_onelake_token g w) = inr None →
  result (handler r g w req) =
    inr (func.mkHttpResponse
           "Authentication required for OneLake tables call" 401 None)
  ∧ upstream_calls (trace (handler r g w req)) = 0%nat
  ∧ trace (handler r g w req) =
      Logged INFO "Python HTTP trigger function processed a request."
      :: trace (acquire_onelake_token g w) ++
      match result (acquire_onelake_token g w) with
      | inl e =>
          [Logged WARNING
             ("Could not acquire OneLake token: " +:+ exc_str e)]
      | inr _ => []
      end ++
      [Logged ERROR
         "Token required for OneLake tables call but not available"].
Proof.
  intros Habsent.
  rewrite upstream_calls_urls, handler_upstream_urls, handler_proxy.
  destruct Habsent as [[e Hacq] | Hacq].
  - rewrite (proxy_raised _ _ _ _ Hacq), Hacq. by observe.
  - rewrite (proxy_none _ _ _ Hacq), Hacq. by observe.
Qed.

(** ** The scope of the token request *)

(** C2. The module reads [ONELAKE_SCOPE] from the environment, with the
    storage scope as default; every token request
    [acquire_onelake_token] makes carries the literal
    ["https://storage.azure.com/.default"] as its only scope, and one
    such request is made whenever the credentials are set and the MSAL
    application is created; the configured value has no influence on the
    acquisition. *)
Theorem C2_configured_scope_unused (environ : gmap string string)
    (w : World) (scope : string) :
  ONELAKE_SCOPE (module_globals environ) =
    default "https://storage.azure.com/.default" (environ !! "ONELAKE_SCOPE")
  ∧ ONELAKE_SCOPE (module_globals (<["ONELAKE_SCOPE" := scope]> environ)) =
      scope
  ∧ Forall (λ scopes, scopes = ["https://storage.azure.com/.default"])
      (requested_scopes
         (trace (acquire_onelake_token
                   (module_globals (<["ONELAKE_SCOPE" := scope]> environ)) w)))
  ∧ (let g := module_globals (<["ONELAKE_SCOPE" := scope]> environ) in
     requested_scopes (trace (acquire_onelake_token g w)) =
       if credentials_set g then
         match msal_init w (msal.mkApp (CLIENT_ID g) (AUTHORITY g)
                              (CLIENT_SECRET g)) with
         | None => [["https://storage.azure.com/.default"]]
         | Some _ => []
         end
       else [])
  ∧ acquire_onelake_token
      (module_globals (<["ONELAKE_SCOPE" := scope]> environ)) w =
    acquire_onelake_token (module_globals environ) w.
Proof.
  split; [done |].
  split; [unfold module_globals; cbn; by rewrite lookup_insert_eq |].
  split; [apply acquire_scopes |].
  split; [apply acquire_scopes_exact |].
  unfold acquire_onelake_token, module_globals.
  cbn [TENANT_ID CLIENT_ID CLIENT_SECRET AUTHORITY].
  by rewrite !lookup_insert_ne by done.
Qed.

(** ** Missing credentials *)

(** C6, as amended. If any of the tenant identifier, client identifier or
    client secret is unset or empty, [acquire_onelake_token] raises at
    once, with an empty trace (no MSAL call, no network call), a
    [RuntimeError] that says the three must be set. The failure raised
    when the identity provider's answer has no [access_token] is a
    [RuntimeError] as well: the two are of one class and differ in their
    message only. *)
Theorem C6_missing_credentials (g : Globals) (w : World) :
  truthy (TENANT_ID g) = false
  ∨ truthy (CLIENT_ID g) = false
  ∨ truthy (CLIENT_SECRET g) = false →
  acquire_onelake_token g w =
    ([], inl (RuntimeError
      "TENANT_ID, CLIENT_ID and CLIENT_SECRET must be set in environment (local.settings.json for local dev)."))
  ∧ ∀ (g' : Globals) (w' : World) (answer : gmap string (option string)),
      let app :=
        msal.mkApp (CLIENT_ID g') (AUTHORITY g') (CLIENT_SECRET g') in
      credentials_set g' = true →
      msal_init w' app = None →
      msal_acquire_token_for_client w' app
        ["https://storage.azure.com/.default"] = inr answer →
      answer !! "access_token" = None →
      ∃ detail,
        result (acquire_onelake_token g' w') =
          inl (RuntimeError ("Failed to acquire token: " +:+ detail))
        ∧ exc_class (RuntimeError ("Failed to acquire token: " +:+ detail)) =
            exc_class (RuntimeError
              "TENANT_ID, CLIENT_ID and CLIENT_SECRET must be set in environment (local.settings.json for local dev).")
        ∧ "Failed to acquire token: " +:+ detail ≠
            "TENANT_ID, CLIENT_ID and CLIENT_SECRET must be set in environment (local.settings.json for local dev).".
Proof.
  intros Hunset.
  assert (credentials_set g = false) as Hnot_set.
  { unfold credentials_set.
    destruct Hunset as [-> | [-> | ->]]; by rewrite ?andb_false_r. }
  split; [by apply acquire_unconfigured |].
  intros g' w' answer app Hset Hinit Hanswer Hlacks.
  unfold acquire_onelake_token, ConfidentialClientApplication,
    acquire_token_for_client, perform, result.
  fold (credentials_set g'). rewrite Hset. cbn -[append].
  fold app. rewrite Hinit. cbn -[append].
  rewrite Hanswer. cbn -[append]. rewrite Hlacks. cbn -[append].
  eexists. split; [reflexivity |]. split; [reflexivity | discriminate].
Qed.

(** ** The upstream URL *)

(** C3. For every workspace and dataitem, the warehouse identifier is
    ["/" + workspace + "/" + dataitem], unnormalised, and the URL each of
    the five handlers requests is the upstream host followed by the path
    the interface table documents for its route. For [ws1],
    [item1.Lakehouse], [s1], [t1] the table-detail path is
    [/iceberg/v1//ws1/item1.Lakehouse/namespaces/s1/tables/t1], with two
    slashes after [v1]. *)
Theorem C3_upstream_path (r : Route) (g : Globals) (w : World)
    (req : func.HttpRequest) (workspace dataitem token : string) :
  func.params req !! "workspace" = Some workspace →
  func.params req !! "dataitem" = Some dataitem →
  result (acquire_onelake_token g w) = inr (Some token) →
  upstream_urls (trace (handler r g w req)) =
    ["https://onelake.dfs.fabric.microsoft.com" +:+
     documented_path r ("/" +:+ workspace +:+ "/" +:+ dataitem)
       (py_str (func.params req !! "schema"))
       (py_str (func.params req !! "table"))]
  ∧ documented_path route_fn_read_tables
      ("/" +:+ "ws1" +:+ "/" +:+ "item1.Lakehouse") "s1" "t1" =
    "/iceberg/v1//ws1/item1.Lakehouse/namespaces/s1/tables/t1".
Proof.
  intros Hworkspace Hdataitem Hacq. split; [| reflexivity].
  rewrite handler_upstream_urls, Hacq. unfold tables_url.
  rewrite Hworkspace, Hdataitem. by destruct r.
Qed.

(** ** The upstream GET fails *)

(** C4. Whenever a token was obtained: if the upstream GET raises a
    [RequestException] that carries no response, the handler returns
    HTTP 502 with [str(e)] as body; if the exception carries a response,
    or [raise_for_status] raises for an error status, the handler returns
    that response's status code and text. *)
Theorem C4_upstream_failure (r : Route) (g : Globals) (w : World)
    (req : func.HttpRequest) (token : string) :
  result (acquire_onelake_token g w) = inr (Some token) →
  (∀ e,
     upstream_outcome w r req token = inl e →
     is_RequestException e = true →
     getattr_response e = None →
     result (handler r g w req) =
       inr (func.mkHttpResponse (exc_str e) 502 None))
  ∧ (∀ e resp,
       upstream_outcome w r req token = inl e →
       is_RequestException e = true →
       getattr_response e = Some resp →
       result (handler r g w req) =
         inr (func.mkHttpResponse (requests.text resp)
                (requests.status_code resp) None))
  ∧ (∀ resp,
       upstream_outcome w r req token = inr resp →
       requests.is_error_status resp = true →
       result (handler r g w req) =
         inr (func.mkHttpResponse (requests.text resp)
                (requests.status_code resp) None)).
Proof.
  intros Hacq. rewrite handler_proxy, (proxy_token _ _ _ _ Hacq).
  observe. unfold upstream_outcome, relay.
  repeat split.
  - intros e -> -> ->. by observe.
  - intros e resp -> -> ->. by observe.
  - intros resp -> ->. by observe.
Qed.

(** ** The upstream GET succeeds *)



(** ** Absent query parameters *)



(** Where a response comes from. *)
Lemma handler_response_origin (r : Route) (g : Globals) (w : World)
    (req : func.HttpRequest) (out : func.HttpResponse) :
  result (handler r g w req) = inr out →
  ((∀ token, result (acquire_onelake_token g w) ≠ inr (Some token))
   ∧ out = func.mkHttpResponse
             "Authentication required for OneLake tables call" 401 None)
  ∨ (∃ token e,
       result (acquire_onelake_token g w) = inr (Some token)
       ∧ upstream_outcome w r req token = inl e
       ∧ is_RequestException e = true
       ∧ getattr_response e = None
       ∧ out = func.mkHttpResponse (exc_str e) 502 None)
  ∨ (∃ token e resp,
       result (acquire_onelake_token g w) = inr (Some token)
       ∧ upstream_outcome w r req token = inl e
       ∧ is_RequestException e = true
       ∧ getattr_response e = Some resp
       ∧ out = func.mkHttpResponse (requests.text resp)
                 (requests.status_code resp) None)
  ∨ (∃ token resp,
       result (acquire_onelake_token g w) = inr (Some token)
       ∧ upstream_outcome w r req token = inr resp
       ∧ (requests.is_error_status resp = true
          ∨ (requests.is_error_status resp = false
             ∧ ∃ e, json_loads (requests.text resp) = inl e
                    ∧ is_ValueError e = true))
       ∧ out = func.mkHttpResponse (requests.text resp)
                 (requests.status_code resp) None)
  ∨ (∃ token resp tables,
       result (acquire_onelake_token g w) = inr (Some token)
       ∧ upstream_outcome w r req token = inr resp
       ∧ requests.is_error_status resp = false
       ∧ json_loads (requests.text resp) = inr tables
       ∧ out = func.mkHttpResponse (json_dumps tables)
                 (requests.status_code resp) (Some "application/json")).
Proof.
  rewrite handler_proxy. unfold upstream_outcome.
  destruct (result (acquire_onelake_token g w)) as [e | [token |]] eqn:Hacq.
  - rewrite (proxy_raised _ _ _ _ Hacq). observe. intros [= <-]. by left.
  - rewrite (proxy_token _ _ _ _ Hacq). observe. unfold relay.
    destruct (http_get w _ _ _) as [e | resp] eqn:Hget.
    + destruct (is_RequestException e) eqn:Hclass; [| done].
      observe. destruct (getattr_response e) as [resp |] eqn:Hresp;
        intros [= <-].
      * right; right; left. by exists token, e, resp.
      * right; left. by exists token, e.
    + destruct (requests.is_error_status resp) eqn:Hstatus.
      { observe. intros [= <-]. right; right; right; left.
        exists token, resp. split; [done |]. split; [done |].
        split; [by left | done]. }
      destruct (json_loads (requests.text resp)) as [e | tables] eqn:Hparse.
      * destruct (is_ValueError e) eqn:Hclass; [| done].
        observe. intros [= <-]. right; right; right; left.
        exists token, resp. split; [done |]. split; [done |].
        split; [right; split; [done | by exists e] | done].
      * observe. intros [= <-]. right; right; right; right.
        by exists token, resp, tables.
  - rewrite (proxy_none _ _ _ Hacq). observe. intros [= <-]. by left.
Qed.



(** ** Every failure becomes a response *)

(** The exceptions that leave a handler. *)
Lemma handler_escape (r : Route) (g : Globals) (w : World)
    (req : func.HttpRequest) (e : PyExc) :
  result (handler r g w req) = inl e →
  ∃ token,
    result (acquire_onelake_token g w) = inr (Some token)
    ∧ ((upstream_outcome w r req token = inl e
        ∧ is_RequestException e = false)
       ∨ ∃ resp,
           upstream_outcome w r req token = inr resp
           ∧ requests.is_error_status resp = false
           ∧ json_loads (requests.text resp) = inl e
           ∧ is_ValueError e = false).
Proof.
  rewrite handler_proxy.
  destruct (result (acquire_onelake_token g w)) as [e' | [token |]] eqn:Hacq.
  - by rewrite (proxy_raised _ _ _ _ Hacq).
  - rewrite (proxy_token _ _ _ _ Hacq). observe.
    intros Hout. exists token. split; [done |]. unfold upstream_outcome.
    destruct (http_get w _ _ _) as [e' | resp]; unfold relay in Hout.
    + destruct (is_RequestException e') eqn:Hclass; [done |].
      observe. injection Hout as ->. by left.
    + right. exists resp.
      destruct (requests.is_error_status resp); [done |].
      destruct (json_loads (requests.text resp)) as [e' | tables];
        [| done].
      destruct (is_ValueError e') eqn:Hclass; [done |].
      observe. by injection Hout as ->.
  - by rewrite (proxy_none _ _ _ Hacq).
Qed.

Lemma handler_escapes (r : Route) (g : Globals) (w : World)
    (req : func.HttpRequest) (token : string) (e : PyExc) :
  result (acquire_onelake_token g w) = inr (Some token) →
  (upstream_outcome w r req token = inl e ∧ is_RequestException e = false)
  ∨ (∃ resp,
       upstream_outcome w r req token = inr resp
       ∧ requests.is_error_status resp = false
       ∧ json_loads (requests.text resp) = inl e
       ∧ is_ValueError e = false) →
  result (handler r g w req) = inl e.
Proof.
  intros Hacq Hcase.
  rewrite handler_proxy, (proxy_token _ _ _ _ Hacq). observe.
  unfold upstream_outcome in Hcase. unfold relay.
  destruct Hcase as [[-> ->] | (resp & -> & -> & -> & ->)]; by observe.
Qed.

(** C8, as amended. A failure of token acquisition, whatever its class and
    missing configuration included, never leaves a handler: it is answered
    with the 401 of the token check. A failure of the upstream GET that is
    a [RequestException], and an error status, are turned into a response.
    An exception [e] leaves a handler exactly when a token was obtained and
    [e] lies outside the two classes the handler catches after that: the
    GET raised [e] and [e] is not a [RequestException], or parsing the body
    of a response without error status raised [e] and [e] is not a
    [ValueError]. Where [requests.get] raises nothing but
    [RequestException], only the second can happen. In every other case
    the result is an [HttpResponse]. *)
Theorem C8_failures_become_responses (r : Route) (g : Globals) (w : World)
    (req : func.HttpRequest) :
  (∀ e,
     result (acquire_onelake_token g w) = inl e →
     result (handler r g w req) =
       inr (func.mkHttpResponse
              "Authentication required for OneLake tables call" 401 None))
  ∧ (credentials_set g = false →
     result (handler r g w req) =
       inr (func.mkHttpResponse
              "Authentication required for OneLake tables call" 401 None))
  ∧ (∀ token e,
       result (acquire_onelake_token g w) = inr (Some token) →
       upstream_outcome w r req token = inl e →
       is_RequestException e = true →
       ∃ out, result (handler r g w req) = inr out)
  ∧ (∀ token resp,
       result (acquire_onelake_token g w) = inr (Some token) →
       upstream_outcome w r req token = inr resp →
       requests.is_error_status resp = true →
       ∃ out, result (handler r g w req) = inr out)
  ∧ (∀ e,
       result (handler r g w req) = inl e
       ↔ ∃ token,
           result (acquire_onelake_token g w) = inr (Some token)
           ∧ ((upstream_outcome w r req token = inl e
               ∧ is_RequestException e = false)
              ∨ ∃ resp,
                  upstream_outcome w r req token = inr resp
                  ∧ requests.is_error_status resp = false
                  ∧ json_loads (requests.text resp) = inl e
                  ∧ is_ValueError e = false))
  ∧ (requests_contract w →
     ∀ e,
       result (handler r g w req) = inl e →
       ∃ token resp,
         result (acquire_onelake_token g w) = inr (Some token)
         ∧ upstream_outcome w r req token = inr resp
         ∧ requests.is_error_status resp = false
         ∧ json_loads (requests.text resp) = inl e
         ∧ is_ValueError e = false).
Proof.
  assert (∀ e,
    result (acquire_onelake_token g w) = inl e →
    result (handler r g w req) =
      inr (func.mkHttpResponse
             "Authentication required for OneLake tables call" 401 None))
    as Hraised.
  { intros e Hacq. by rewrite handler_proxy, (proxy_raised _ _ _ _ Hacq). }
  split; [exact Hraised |].
  split.
  { intros Hunset. eapply Hraised.
    by rewrite (acquire_unconfigured _ _ Hunset). }
  split.
  { intros token e Hacq Hget Hclass.
    rewrite handler_proxy, (proxy_token _ _ _ _ Hacq). observe.
    unfold upstream_outcome in Hget. rewrite Hget. unfold relay.
    rewrite Hclass. observe. by eexists. }
  split.
  { intros token resp Hacq Hget Hstatus.
    rewrite handler_proxy, (proxy_token _ _ _ _ Hacq). observe.
    unfold upstream_outcome in Hget. rewrite Hget. unfold relay.
    rewrite Hstatus. observe. by eexists. }
  split.
  { intros e. split; [apply handler_escape |].
    intros (token & Hacq & Hcase). by eapply handler_escapes. }
  intros Hcontract e Hout.
  destruct (handler_escape _ _ _ _ _ Hout)
    as (token & Hacq & [[Hget Hclass] | (resp & Hrest)]).
  - apply Hcontract in Hget. congruence.
  - by exists token, resp.
Qed.

(** ** The five handlers are one *)


(** ** The module-level base URL *)

(** C10. [BaseURL] is ["https://onelake.table.fabric.microsoft.com/"]
    and no handler uses it: every URL a handler requests begins with the
    literal ["https://onelake.dfs.fabric.microsoft.com/iceberg/v1"], none
    begins with [BaseURL], and a handler behaves the same whatever value
    [BaseURL] holds. *)
Theorem C10_BaseURL_unused (r : Route) (environ : gmap string string)
    (g : Globals) (w : World) (req : func.HttpRequest) (base : string) :
  BaseURL (module_globals environ) =
    "https://onelake.table.fabric.microsoft.com/"
  ∧ Forall
      (λ url,
         String.prefix
           "https://onelake.dfs.fabric.microsoft.com/iceberg/v1" url = true
         ∧ String.prefix (BaseURL (module_globals environ)) url = false)
      (upstream_urls (trace (handler r g w req)))
  ∧ handler r
      (mkGlobals (TENANT_ID g) (CLIENT_ID g) (CLIENT_SECRET g)
         (ONELAKE_SCOPE g) (ONELAKE_TEST_ENDPOINT g) (AUTHORITY g) base)
      w req =
    handler r g w req.
Proof.
  split; [done |]. split.
  - rewrite handler_upstream_urls.
    destruct (result (acquire_onelake_token g w)) as [e | [token |]];
      [constructor | | constructor].
    repeat constructor; by destruct r.
  - by destruct r.
Qed.

End Properties.

(** * Further properties of the module *)

Section MoreProperties.

Context `{PyRuntime}.

Ltac observe_run :=
  repeat match goal with
  | |- context [trace (?t, ?r)] => change (trace (t, r)) with t
  | |- context [result (?t, ?r)] => change (result (t, r)) with r
  end.

(** ** [acquire_onelake_token], path by path *)

Lemma acquire_paths (g : Globals) (w : World) :
  let app := msal.mkApp (CLIENT_ID g) (AUTHORITY g) (CLIENT_SECRET g) in
  let scopes := ["https://storage.azure.com/.default"] in
  acquire_onelake_token g w =
    if credentials_set g then
      match msal_init w app with
      | Some e => ([MsalAppCreated app], inl e)
      | None =>
          match msal_acquire_token_for_client w app scopes with
          | inl e => ([MsalAppCreated app; MsalTokenRequested app scopes], inl e)
          | inr answer =>
              match answer !! "access_token" with
              | Some token =>
                  ([MsalAppCreated app; MsalTokenRequested app scopes],
                   inr token)
              | None =>
                  ([MsalAppCreated app; MsalTokenRequested app scopes;
                    Logged ERROR
                      ("MSAL token acquisition failed: " +:+ str_dict answer)],
                   inl (RuntimeError
                     ("Failed to acquire token: " +:+
                      match py_or (mjoin (answer !! "error_description")) None
                      with
                      | Some description => description
                      | None => str_dict answer
                      end)))
              end
          end
      end
    else ([], inl (RuntimeError credentials_message)).
Proof.
  unfold acquire_onelake_token, ConfidentialClientApplication,
    acquire_token_for_client, perform.
  fold (credentials_set g). destruct (credentials_set g); [| done].
  cbn -[append]. destruct (msal_init w _); cbn -[append]; [done |].
  destruct (msal_acquire_token_for_client w _ _) as [e | answer];
    cbn -[append]; [done |].
  by destruct (answer !! "access_token").
Qed.

Lemma truthy_py_or (a b : option string) :
  truthy (py_or a b) = truthy a || truthy b.
Proof. unfold py_or. by destruct (truthy a) eqn:Ha. Qed.

Lemma truthy_Some (v : option string) :
  truthy v = true → ∃ s, v = Some s ∧ s ≠ EmptyString.
Proof.
  destruct v as [s |]; [| done]. cbn. intros Hs. exists s. split; [done |].
  intros ->. done.
Qed.

Lemma credentials_set_module_globals (environ : gmap string string) :
  credentials_set (module_globals environ) = credentials_in environ.
Proof.
  unfold credentials_set, credentials_in, module_globals.
  cbn [TENANT_ID CLIENT_ID CLIENT_SECRET]. by rewrite !truthy_py_or.
Qed.

Lemma acquire_module_globals_ext (environ environ' : gmap string string)
    (w : World) :
  Forall (λ k, environ !! k = environ' !! k) credential_variables →
  acquire_onelake_token (module_globals environ) w =
    acquire_onelake_token (module_globals environ') w.
Proof.
  unfold credential_variables. intros Hsame.
  repeat (apply Forall_cons_1 in Hsame as [? Hsame]).
  cbv beta in *.
  unfold acquire_onelake_token, module_globals.
  cbn [TENANT_ID CLIENT_ID CLIENT_SECRET AUTHORITY].
  repeat match goal with
  | Heq : environ !! _ = environ' !! _ |- _ => rewrite Heq; clear Heq
  end.
  reflexivity.
Qed.

(** X1. The configuration error of line 24 is raised, before anything is
    called, exactly when some credential has no non-empty value in either
    of its two environment variables; an empty primary variable falls back
    to the [AZURE_] one. *)
Theorem configuration_error_iff (environ : gmap string string) (w : World) :
  acquire_onelake_token (module_globals environ) w =
    ([], inl (RuntimeError credentials_message))
  ↔ credentials_in environ = false.
Proof.
  rewrite <- credentials_set_module_globals, acquire_paths. cbv zeta.
  destruct (credentials_set (module_globals environ)); [| done].
  split; [| done].
  destruct (msal_init w _); [done |].
  destruct (msal_acquire_token_for_client w _ _) as [e | answer]; [done |].
  by destruct (answer !! "access_token").
Qed.

(** X2. With the configuration read from the environment, every MSAL
    application the module creates has the resolved, non-empty client
    identifier and secret and the authority
    [https://login.microsoftonline.com/] followed by the resolved,
    non-empty tenant; the authority is never [None]. *)
Theorem msal_app_from_environment (environ : gmap string string) (w : World)
    (app : msal.ConfidentialClientApplication) :
  MsalAppCreated app ∈
    trace (acquire_onelake_token (module_globals environ) w) →
  ∃ tenant client secret,
    py_or (environ !! "TENANT_ID") (environ !! "AZURE_TENANT_ID") = Some tenant
    ∧ py_or (environ !! "CLIENT_ID") (environ !! "AZURE_CLIENT_ID") =
        Some client
    ∧ py_or (environ !! "CLIENT_SECRET") (environ !! "AZURE_CLIENT_SECRET") =
        Some secret
    ∧ tenant ≠ EmptyString ∧ client ≠ EmptyString ∧ secret ≠ EmptyString
    ∧ app = msal.mkApp (Some client)
              (Some ("https://login.microsoftonline.com/" +:+ tenant))
              (Some secret).
Proof.
  intros Hcreated.
  assert (credentials_set (module_globals environ) = true) as Hset.
  { destruct (credentials_set (module_globals environ)) eqn:Hset; [done |].
    rewrite acquire_unconfigured in Hcreated by done. by inversion Hcreated. }
  assert (app = msal.mkApp (CLIENT_ID (module_globals environ))
                  (AUTHORITY (module_globals environ))
                  (CLIENT_SECRET (module_globals environ))) as ->.
  { destruct (acquire_trace (module_globals environ) w)
      as [Ht | [Ht | [Ht | [line Ht]]]];
      rewrite Ht in Hcreated;
      repeat match goal with
      | Hin : _ ∈ [] |- _ => by apply elem_of_nil in Hin
      | Hin : _ ∈ _ :: _ |- _ =>
          apply elem_of_cons in Hin as [Heq | Hin];
          [first [by injection Heq | discriminate Heq] |]
      end. }
  unfold credentials_set in Hset.
  apply andb_prop in Hset as [Hset Hsecret].
  apply andb_prop in Hset as [Htenant Hclient].
  unfold module_globals in *.
  cbn [TENANT_ID CLIENT_ID CLIENT_SECRET AUTHORITY] in *.
  rewrite Htenant.
  destruct (truthy_Some _ Htenant) as (tenant & -> & ?).
  destruct (truthy_Some _ Hclient) as (client & -> & ?).
  destruct (truthy_Some _ Hsecret) as (secret & -> & ?).
  by exists tenant, client, secret.
Qed.

(** X3. When MSAL raises while the application is created, whatever the
    class of the exception, no token is requested and every handler answers
    401 after logging the exception's text at warning level. *)
Theorem msal_init_failure_401 (r : Route) (g : Globals) (w : World)
    (req : func.HttpRequest) (e : PyExc) :
  let app := msal.mkApp (CLIENT_ID g) (AUTHORITY g) (CLIENT_SECRET g) in
  credentials_set g = true →
  msal_init w app = Some e →
  handler r g w req =
    ([Logged INFO "Python HTTP trigger function processed a request.";
      MsalAppCreated app;
      Logged WARNING ("Could not acquire OneLake token: " +:+ exc_str e);
      Logged ERROR "Token required for OneLake tables call but not available"],
     inr authentication_required).
Proof.
  intros app Hset Hinit.
  assert (acquire_onelake_token g w = ([MsalAppCreated app], inl e)) as Hacq.
  { rewrite acquire_paths. cbv zeta. fold app. by rewrite Hset, Hinit. }
  rewrite handler_proxy, (proxy_raised g w _ e) by by rewrite Hacq.
  by rewrite Hacq.
Qed.

(** X4. When the answer of the identity provider has no [access_token],
    the module logs the whole answer at error level and raises a
    [RuntimeError] whose message ends in the answer's [error_description]
    if that is a non-empty string, and in the text of the whole answer
    otherwise (absent, [None] or empty description). *)
Theorem token_failure_message (g : Globals) (w : World)
    (answer : gmap string (option string)) :
  let app := msal.mkApp (CLIENT_ID g) (AUTHORITY g) (CLIENT_SECRET g) in
  let scopes := ["https://storage.azure.com/.default"] in
  credentials_set g = true →
  msal_init w app = None →
  msal_acquire_token_for_client w app scopes = inr answer →
  answer !! "access_token" = None →
  acquire_onelake_token g w =
    ([MsalAppCreated app; MsalTokenRequested app scopes;
      Logged ERROR ("MSAL token acquisition failed: " +:+ str_dict answer)],
     inl (RuntimeError
       ("Failed to acquire token: " +:+
        match answer !! "error_description" with
        | Some (Some description) =>
            if decide (description = EmptyString) then str_dict answer
            else description
        | _ => str_dict answer
        end))).
Proof.
  intros app scopes Hset Hinit Hanswer Hlacks.
  rewrite acquire_paths. cbv zeta. fold app scopes.
  rewrite Hset, Hinit, Hanswer, Hlacks.
  destruct (answer !! "error_description") as [[description |] |];
    [| done | done].
  cbn -[append]. unfold py_or, truthy.
  case_decide as Hempty; [by rewrite Hempty |].
  destruct description; [done |]. done.
Qed.

(** X5. The token MSAL issues is the token sent upstream: when the answer
    carries an [access_token], every handler performs exactly one upstream
    GET, of its [tables_url], with the headers [Authorization: Bearer]
    followed by that token and [Accept: application/json], and a timeout of
    30 seconds. *)
Theorem issued_token_sent_upstream (r : Route) (g : Globals) (w : World)
    (req : func.HttpRequest) (answer : gmap string (option string))
    (token : string) :
  let app := msal.mkApp (CLIENT_ID g) (AUTHORITY g) (CLIENT_SECRET g) in
  credentials_set g = true →
  msal_init w app = None →
  msal_acquire_token_for_client w app ["https://storage.azure.com/.default"] =
    inr answer →
  answer !! "access_token" = Some (Some token) →
  upstream_gets (trace (handler r g w req)) =
    [HttpGet (tables_url r req)
       [("Authorization", "Bearer " +:+ token); ("Accept", "application/json")]
       30].
Proof.
  intros app Hset Hinit Hanswer Htoken.
  assert (acquire_onelake_token g w =
            ([MsalAppCreated app;
              MsalTokenRequested app ["https://storage.azure.com/.default"]],
             inr (Some token))) as Hacq.
  { rewrite acquire_paths. cbv zeta. fold app.
    by rewrite Hset, Hinit, Hanswer, Htoken. }
  rewrite handler_proxy, (proxy_token g w _ token) by by rewrite Hacq.
  rewrite Hacq. observe_run. unfold upstream_gets, relay.
  repeat case_match; by observe_run.
Qed.

(** X6. Every request makes at most one upstream GET: one when a token was
    obtained, none otherwise. *)
Theorem upstream_called_at_most_once (r : Route) (g : Globals) (w : World)
    (req : func.HttpRequest) :
  upstream_calls (trace (handler r g w req)) =
    match result (acquire_onelake_token g w) with
    | inr (Some _) => 1%nat
    | _ => 0%nat
    end.
Proof.
  rewrite upstream_calls_urls, handler_upstream_urls.
  by destruct (result (acquire_onelake_token g w)) as [e | [token |]].
Qed.

Lemma relay_no_msal_call (outcome : PyExc + requests.Response) :
  Forall (λ ev, is_msal_call ev = false) (trace (relay outcome)).
Proof.
  unfold relay. repeat case_match; observe_run; repeat constructor.
Qed.

(** X7. Every request acquires its token afresh, once, and first: the trace
    of a handler is the INFO line, then the events of one call of
    [acquire_onelake_token], then events among which there is no MSAL
    call. *)
Theorem token_acquired_once_first (r : Route) (g : Globals) (w : World)
    (req : func.HttpRequest) :
  ∃ rest,
    trace (handler r g w req) =
      Logged INFO "Python HTTP trigger function processed a request."
      :: trace (acquire_onelake_token g w) ++ rest
    ∧ Forall (λ ev, is_msal_call ev = false) rest.
Proof.
  rewrite handler_proxy.
  destruct (result (acquire_onelake_token g w)) as [e | [token |]] eqn:Hacq.
  - rewrite (proxy_raised _ _ _ _ Hacq). observe_run.
    eexists. split; [done |]. repeat constructor.
  - rewrite (proxy_token _ _ _ _ Hacq). observe_run.
    eexists. split; [done |]. constructor; [done |].
    apply relay_no_msal_call.
  - rewrite (proxy_none _ _ _ Hacq). observe_run.
    eexists. split; [done |]. repeat constructor.
Qed.

(** X8. A response of a handler has one of four forms, each tied to what
    happened: the 401 of the token check, when no token was obtained; 502
    with the text of the [RequestException] the upstream GET raised, when
    that carries no response; the status and text, without mimetype, of
    the response the upstream GET produced (attached to the
    [RequestException] raised, or returned with an error status, or
    returned with a body whose parsing raised [ValueError]); or the status
    of the response the GET returned without error status, with its parsed
    body re-serialised and mimetype [application/json]. *)
Theorem response_forms (r : Route) (g : Globals) (w : World)
    (req : func.HttpRequest) (out : func.HttpResponse) :
  result (handler r g w req) = inr out →
  ((∀ token, result (acquire_onelake_token g w) ≠ inr (Some token))
   ∧ out = func.mkHttpResponse
             "Authentication required for OneLake tables call" 401 None)
  ∨ (∃ token e,
       result (acquire_onelake_token g w) = inr (Some token)
       ∧ upstream_outcome w r req token = inl e
       ∧ is_RequestException e = true
       ∧ getattr_response e = None
       ∧ out = func.mkHttpResponse (exc_str e) 502 None)
  ∨ (∃ token resp,
       result (acquire_onelake_token g w) = inr (Some token)
       ∧ ((∃ e,
             upstream_outcome w r req token = inl e
             ∧ is_RequestException e = true
             ∧ getattr_response e = Some resp)
          ∨ (upstream_outcome w r req token = inr resp
             ∧ requests.is_error_status resp = true)
          ∨ (upstream_outcome w r req token = inr resp
             ∧ requests.is_error_status resp = false
             ∧ ∃ e, json_loads (requests.text resp) = inl e
                    ∧ is_ValueError e = true))
       ∧ out = func.mkHttpResponse (requests.text resp)
                 (requests.status_code resp) None)
  ∨ (∃ token resp tables,
       result (acquire_onelake_token g w) = inr (Some token)
       ∧ upstream_outcome w r req token = inr resp
       ∧ requests.is_error_status resp = false
       ∧ json_loads (requests.text resp) = inr tables
       ∧ out = func.mkHttpResponse (json_dumps tables)
                 (requests.status_code resp) (Some "application/json")).
Proof.
  intros Hout.
  destruct (handler_response_origin _ _ _ _ _ Hout)
    as [Hform
       | [Hform
         | [(token & e & resp & ? & ? & ? & ? & ?)
           | [(token & resp & ? & ? & Hwhy & ?) | Hform]]]].
  - by left.
  - by right; left.
  - right; right; left. exists token, resp. split; [done |].
    split; [left; by exists e | done].
  - right; right; left. exists token, resp. split; [done |].
    split; [| done].
    destruct Hwhy as [? | [? ?]]; [by right; left | by right; right].
  - by right; right; right.
Qed.

(** X9. An exception [e] leaves a handler exactly when a token was
    obtained and either the upstream GET raised [e] and [e] is not a
    [RequestException], or the GET returned a response without error
    status and parsing its body raised [e] and [e] is not a
    [ValueError]. *)
Theorem escape_iff (r : Route) (g : Globals) (w : World)
    (req : func.HttpRequest) (e : PyExc) :
  result (handler r g w req) = inl e
  ↔ ∃ token,
      result (acquire_onelake_token g w) = inr (Some token)
      ∧ ((upstream_outcome w r req token = inl e
          ∧ is_RequestException e = false)
         ∨ ∃ resp,
             upstream_outcome w r req token = inr resp
             ∧ requests.is_error_status resp = false
             ∧ json_loads (requests.text resp) = inl e
             ∧ is_ValueError e = false).
Proof.
  split; [apply handler_escape |].
  intros (token & Hacq & Hcase).
  rewrite handler_proxy, (proxy_token _ _ _ _ Hacq). observe_run.
  unfold upstream_outcome in Hcase. unfold relay.
  destruct Hcase as [[-> ->] | (resp & -> & -> & -> & ->)]; by observe_run.
Qed.

(** ** What a handler depends on *)

Lemma tables_url_ext (r : Route) (req req' : func.HttpRequest) :
  Forall (λ k, func.params req !! k = func.params req' !! k) (read_params r) →
  tables_url r req = tables_url r req'.
Proof.
  intros Hsame. unfold tables_url.
  destruct r; cbn [read_params] in Hsame;
    repeat (apply Forall_cons_1 in Hsame as [? Hsame]);
    cbv beta in *;
    repeat match goal with
    | Heq : func.params req !! _ = func.params req' !! _ |- _ =>
        rewrite Heq; clear Heq
    end;
    reflexivity.
Qed.

(** X10. A handler depends on the request through the parameters it reads
    only: two requests that agree on them, whatever else they carry, get
    the same response and leave the same trace. *)
Theorem unread_parameters_ignored (r : Route) (g : Globals) (w : World)
    (req req' : func.HttpRequest) :
  Forall (λ k, func.params req !! k = func.params req' !! k) (read_params r) →
  handler r g w req = handler r g w req'.
Proof.
  intros Hsame. by rewrite !handler_proxy, (tables_url_ext r req req').
Qed.

(** X11. A handler depends on the environment through the six credential
    variables only: [ONELAKE_SCOPE], [ONELAKE_TEST_ENDPOINT] and every
    other variable are without effect. *)
Theorem environment_read_through_credentials (r : Route)
    (environ environ' : gmap string string) (w : World)
    (req : func.HttpRequest) :
  Forall (λ k, environ !! k = environ' !! k) credential_variables →
  handler r (module_globals environ) w req =
    handler r (module_globals environ') w req.
Proof.
  intros Hsame. rewrite !handler_proxy. unfold proxy. cbv zeta.
  by rewrite (acquire_module_globals_ext environ environ').
Qed.

(** X12. When some credential has no non-empty value in the environment,
    every handler answers 401 on every request without calling MSAL or the
    upstream: it logs the INFO line, the configuration message at warning
    level and the missing token at error level, and nothing else
    happens. *)
Theorem unconfigured_401 (r : Route) (environ : gmap string string)
    (w : World) (req : func.HttpRequest) :
  credentials_in environ = false →
  handler r (module_globals environ) w req =
    ([Logged INFO "Python HTTP trigger function processed a request.";
      Logged WARNING
        ("Could not acquire OneLake token: " +:+ credentials_message);
      Logged ERROR "Token required for OneLake tables call but not available"],
     inr authentication_required).
Proof.
  intros Hunset. rewrite <- credentials_set_module_globals in Hunset.
  pose proof (acquire_unconfigured _ w Hunset) as Hacq.
  rewrite handler_proxy,
    (proxy_raised _ w _ (RuntimeError credentials_message))
    by by rewrite Hacq.
  by rewrite Hacq.
Qed.

(** X13. A request that succeeds logs the INFO line and nothing else: when
    the token is obtained and the upstream answers without error status,
    no warning and no error is logged, whether or not the body is JSON. *)
Theorem success_logs_info_only (r : Route) (g : Globals) (w : World)
    (req : func.HttpRequest) (token : string) (resp : requests.Response) :
  result (acquire_onelake_token g w) = inr (Some token) →
  upstream_outcome w r req token = inr resp →
  requests.is_error_status resp = false →
  log_lines (trace (handler r g w req)) =
    [(INFO, "Python HTTP trigger function processed a request.")].
Proof.
  intros Hacq Hget Hstatus.
  rewrite handler_proxy, (proxy_token _ _ _ _ Hacq). observe_run.
  unfold upstream_outcome in Hget. rewrite Hget. unfold relay.
  rewrite Hstatus.
  assert (log_lines (trace (acquire_onelake_token g w)) = []) as Hquiet.
  { revert Hacq. rewrite acquire_paths. cbv zeta.
    destruct (credentials_set g); [| done].
    destruct (msal_init w _); [done |].
    destruct (msal_acquire_token_for_client w _ _) as [e | answer]; [done |].
    by destruct (answer !! "access_token"). }
  change (Logged INFO ?l :: ?t) with ([Logged INFO l] ++ t).
  unfold log_lines in *. rewrite !omap_app, Hquiet.
  repeat case_match; by observe_run.
Qed.

End MoreProperties.

(** * The properties on concrete inputs *)

#[local] Existing Instance Sample.runtime.

(** Without credentials every route answers 401 and calls nothing. *)
Lemma C1_no_token_401_witness :
  (∃ e, result (acquire_onelake_token (module_globals ∅) Sample.world_ok) =
          inl e)
  ∧ result (handler route_fn_read_tables (module_globals ∅) Sample.world_ok
              Sample.request_table) =
      inr (func.mkHttpResponse
             "Authentication required for OneLake tables call" 401 None)
  ∧ upstream_calls
      (trace (handler route_fn_read_tables (module_globals ∅) Sample.world_ok
                Sample.request_table)) = 0%nat.
Proof.
  assert (∃ e, result (acquire_onelake_token (module_globals ∅)
                         Sample.world_ok) = inl e) as Hraised.
  { eexists. vm_compute. reflexivity. }
  split; [exact Hraised |].
  destruct (C1_no_token_401 route_fn_read_tables (module_globals ∅)
              Sample.world_ok Sample.request_table (or_introl Hraised))
    as (Hout & Hcalls & _).
  split; [exact Hout | exact Hcalls].
Defined.

(** The body of that 401 is longer than "Authentication required". *)
Lemma C1_body_counterexample :
  (∃ e, result (acquire_onelake_token (module_globals ∅) Sample.world_ok) =
          inl e)
  ∧ ∃ out,
      result (handler route_fn_read_tables (module_globals ∅) Sample.world_ok
                Sample.request_table) = inr out
      ∧ func.status_code out = 401
      ∧ func.body out ≠ "Authentication required".
Proof.
  split; [eexists; vm_compute; reflexivity |].
  eexists. split; [vm_compute; reflexivity |]. split; [reflexivity |].
  discriminate.
Qed.

(** A scope configured in the environment is read and then ignored. *)
Example configured_scope_ignored :
  ONELAKE_SCOPE (module_globals Sample.environ_scoped) =
    "https://example.org/.default"
  ∧ requested_scopes
      (trace (acquire_onelake_token (module_globals Sample.environ_scoped)
                Sample.world_ok)) =
    [["https://storage.azure.com/.default"]].
Proof. split; vm_compute; reflexivity. Qed.

(** The table-detail URL of the specification's example. *)
Lemma C3_upstream_path_witness :
  (func.params Sample.request_table !! "workspace" = Some "ws1"
   ∧ func.params Sample.request_table !! "dataitem" = Some "item1.Lakehouse"
   ∧ result (acquire_onelake_token (module_globals Sample.environ)
               Sample.world_ok) = inr (Some "tok"))
  ∧ upstream_urls
      (trace (handler route_fn_read_tables (module_globals Sample.environ)
                Sample.world_ok Sample.request_table)) =
    ["https://onelake.dfs.fabric.microsoft.com/iceberg/v1//ws1/item1.Lakehouse/namespaces/s1/tables/t1"].
Proof.
  assert (func.params Sample.request_table !! "workspace" = Some "ws1")
    as Hworkspace by (vm_compute; reflexivity).
  assert (func.params Sample.request_table !! "dataitem" =
            Some "item1.Lakehouse") as Hdataitem by (vm_compute; reflexivity).
  assert (result (acquire_onelake_token (module_globals Sample.environ)
                    Sample.world_ok) = inr (Some "tok"))
    as Hacq by (vm_compute; reflexivity).
  split; [done |].
  exact (proj1 (C3_upstream_path route_fn_read_tables
                  (module_globals Sample.environ) Sample.world_ok
                  Sample.request_table "ws1" "item1.Lakehouse" "tok"
                  Hworkspace Hdataitem Hacq)).
Defined.

(** An unreachable upstream gives 502 with the error text. *)
Lemma C4_upstream_failure_witness :
  result (acquire_onelake_token (module_globals Sample.environ)
            Sample.world_unreachable) = inr (Some "tok")
  ∧ result (handler route_fn_list_namespaces (module_globals Sample.environ)
              Sample.world_unreachable Sample.request_table) =
      inr (func.mkHttpResponse "Connection refused" 502 None).
Proof.
  assert (result (acquire_onelake_token (module_globals Sample.environ)
                    Sample.world_unreachable) = inr (Some "tok"))
    as Hacq by (vm_compute; reflexivity).
  split; [exact Hacq |].
  destruct (C4_upstream_failure route_fn_list_namespaces
              (module_globals Sample.environ) Sample.world_unreachable
              Sample.request_table "tok" Hacq) as (Hbare & _ & _).
  exact (Hbare (RequestException "Connection refused" None)
           eq_refl eq_refl eq_refl).
Defined.

(** An upstream 404 is relayed as it is. *)
Example not_found_relayed :
  result (handler route_fn_get_irc_configuration
            (module_globals Sample.environ) Sample.world_not_found
            Sample.request_table) =
    inr (func.mkHttpResponse "not found" 404 None).
Proof. vm_compute. reflexivity. Qed.


(** A body that is not JSON comes back as text, with no mimetype. *)
Example text_relayed :
  result (handler route_fn_read_iceberg_catalog
            (module_globals Sample.environ) Sample.world_text
            Sample.request_table) =
    inr (func.mkHttpResponse "hello" 200 None).
Proof. vm_compute. reflexivity. Qed.

(** With an empty environment nothing is called and [RuntimeError] is
    raised. *)
Lemma C6_missing_credentials_witness :
  (truthy (TENANT_ID (module_globals ∅)) = false
   ∨ truthy (CLIENT_ID (module_globals ∅)) = false
   ∨ truthy (CLIENT_SECRET (module_globals ∅)) = false)
  ∧ acquire_onelake_token (module_globals ∅) Sample.world_ok =
      ([], inl (RuntimeError
        "TENANT_ID, CLIENT_ID and CLIENT_SECRET must be set in environment (local.settings.json for local dev).")).
Proof.
  split; [left; reflexivity |].
  exact (proj1 (C6_missing_credentials (module_globals ∅) Sample.world_ok
                  (or_introl eq_refl))).
Defined.

(** Missing credentials and a refused client raise the same class. *)
Lemma C6_same_class_counterexample :
  ∃ e_configuration e_provider,
    credentials_set (module_globals ∅) = false
    ∧ result (acquire_onelake_token (module_globals ∅) Sample.world_refused) =
        inl e_configuration
    ∧ credentials_set (module_globals Sample.environ) = true
    ∧ msal_acquire_token_for_client Sample.world_refused
        (msal.mkApp (Some "app-1")
           (Some "https://login.microsoftonline.com/contoso") (Some "s3cret"))
        ["https://storage.azure.com/.default"] = Sample.token_refused
    ∧ result (acquire_onelake_token (module_globals Sample.environ)
                Sample.world_refused) = inl e_provider
    ∧ exc_class e_configuration = exc_class e_provider.
Proof.
  do 2 eexists.
  split; [reflexivity |]. split; [vm_compute; reflexivity |].
  split; [vm_compute; reflexivity |]. split; [reflexivity |].
  split; [vm_compute; reflexivity |]. reflexivity.
Qed.



(** An unreachable upstream ends in a response. *)
Lemma C8_failures_become_responses_witness :
  (result (acquire_onelake_token (module_globals Sample.environ)
             Sample.world_unreachable) = inr (Some "tok")
   ∧ upstream_outcome Sample.world_unreachable route_fn_get_schema_details
       Sample.request_table "tok" =
     inl (RequestException "Connection refused" None)
   ∧ is_RequestException (RequestException "Connection refused" None) = true)
  ∧ ∃ out,
      result (handler route_fn_get_schema_details
                (module_globals Sample.environ) Sample.world_unreachable
                Sample.request_table) = inr out.
Proof.
  assert (result (acquire_onelake_token (module_globals Sample.environ)
                    Sample.world_unreachable) = inr (Some "tok"))
    as Hacq by (vm_compute; reflexivity).
  split; [by repeat split |].
  destruct (C8_failures_become_responses route_fn_get_schema_details
              (module_globals Sample.environ) Sample.world_unreachable
              Sample.request_table) as (_ & _ & Hget & _).
  exact (Hget "tok" (RequestException "Connection refused" None)
           Hacq eq_refl eq_refl).
Defined.

(** A failure of the upstream GET that is no [RequestException] leaves the
    handler, with credentials set and no body parsed; and a missing
    configuration does not leave it. *)
Lemma C8_escape_counterexample :
  (credentials_set (module_globals Sample.environ) = true
   ∧ result (acquire_onelake_token (module_globals Sample.environ)
               Sample.world_get_crashes) = inr (Some "tok")
   ∧ upstream_outcome Sample.world_get_crashes route_fn_read_tables
       Sample.request_table "tok" = inl (OtherException "out of memory")
   ∧ result (handler route_fn_read_tables (module_globals Sample.environ)
               Sample.world_get_crashes Sample.request_table) =
       inl (OtherException "out of memory")
   ∧ ¬ ∃ out,
         result (handler route_fn_read_tables (module_globals Sample.environ)
                   Sample.world_get_crashes Sample.request_table) = inr out)
  ∧ credentials_set (module_globals ∅) = false
  ∧ result (handler route_fn_read_tables (module_globals ∅)
              Sample.world_get_crashes Sample.request_table) =
      inr (func.mkHttpResponse
             "Authentication required for OneLake tables call" 401 None).
Proof.
  split; [| split; vm_compute; reflexivity].
  split; [reflexivity |]. split; [vm_compute; reflexivity |].
  split; [reflexivity |]. split; [vm_compute; reflexivity |].
  intros [out Hout]. vm_compute in Hout. discriminate Hout.
Qed.


(** The application created for [Sample.environ] names its tenant. *)
Lemma msal_app_from_environment_witness :
  MsalAppCreated Sample.app ∈
    trace (acquire_onelake_token (module_globals Sample.environ)
             Sample.world_ok)
  ∧ ∃ tenant client secret,
      tenant ≠ EmptyString
      ∧ Sample.app =
          msal.mkApp (Some client)
            (Some ("https://login.microsoftonline.com/" +:+ tenant))
            (Some secret).
Proof.
  assert (MsalAppCreated Sample.app ∈
            trace (acquire_onelake_token (module_globals Sample.environ)
                     Sample.world_ok)) as Hcreated.
  { vm_compute. apply elem_of_cons. left. reflexivity. }
  split; [exact Hcreated |].
  destruct (msal_app_from_environment Sample.environ Sample.world_ok
              Sample.app Hcreated)
    as (tenant & client & secret & _ & _ & _ & Htenant & _ & _ & Happ).
  exists tenant, client, secret. split; [exact Htenant | exact Happ].
Defined.

(** MSAL fails on creation: 401, and no token was requested. *)
Lemma msal_init_failure_401_witness :
  (credentials_set (module_globals Sample.environ) = true
   ∧ msal_init Sample.world_msal_down Sample.app =
       Some (ValueError "Unable to get authority configuration"))
  ∧ handler route_fn_list_namespaces (module_globals Sample.environ)
      Sample.world_msal_down Sample.request_table =
    ([Logged INFO "Python HTTP trigger function processed a request.";
      MsalAppCreated Sample.app;
      Logged WARNING
        "Could not acquire OneLake token: Unable to get authority configuration";
      Logged ERROR "Token required for OneLake tables call but not available"],
     inr authentication_required).
Proof.
  split; [split; vm_compute; reflexivity |].
  exact (msal_init_failure_401 route_fn_list_namespaces
           (module_globals Sample.environ) Sample.world_msal_down
           Sample.request_table
           (ValueError "Unable to get authority configuration")
           eq_refl eq_refl).
Defined.

(** A refused client: the message ends in the provider's description. *)
Lemma token_failure_message_witness :
  (credentials_set (module_globals Sample.environ) = true
   ∧ msal_init Sample.world_refused Sample.app = None
   ∧ msal_acquire_token_for_client Sample.world_refused Sample.app
       ["https://storage.azure.com/.default"] = Sample.token_refused
   ∧ list_to_map (M := gmap string (option string))
       [("error", Some "invalid_client");
        ("error_description", Some "AADSTS7000215: Invalid client secret")]
       !! "access_token" = None)
  ∧ result (acquire_onelake_token (module_globals Sample.environ)
              Sample.world_refused) =
      inl (RuntimeError
        "Failed to acquire token: AADSTS7000215: Invalid client secret").
Proof.
  split; [repeat split; vm_compute; reflexivity |].
  rewrite (token_failure_message (module_globals Sample.environ)
             Sample.world_refused
             (list_to_map
                [("error", Some "invalid_client");
                 ("error_description",
                  Some "AADSTS7000215: Invalid client secret")])
             eq_refl eq_refl eq_refl eq_refl).
  vm_compute. reflexivity.
Defined.

(** The issued token [tok] travels in the one GET of the table detail. *)
Lemma issued_token_sent_upstream_witness :
  (credentials_set (module_globals Sample.environ) = true
   ∧ msal_init Sample.world_ok Sample.app = None
   ∧ msal_acquire_token_for_client Sample.world_ok Sample.app
       ["https://storage.azure.com/.default"] = Sample.token_issued)
  ∧ upstream_gets
      (trace (handler route_fn_read_tables (module_globals Sample.environ)
                Sample.world_ok Sample.request_table)) =
    [HttpGet
       "https://onelake.dfs.fabric.microsoft.com/iceberg/v1//ws1/item1.Lakehouse/namespaces/s1/tables/t1"
       [("Authorization", "Bearer tok"); ("Accept", "application/json")] 30].
Proof.
  split; [repeat split; vm_compute; reflexivity |].
  rewrite (issued_token_sent_upstream route_fn_read_tables
             (module_globals Sample.environ) Sample.world_ok
             Sample.request_table
             (list_to_map [("access_token", Some "tok");
                           ("token_type", Some "Bearer")])
             "tok" eq_refl eq_refl eq_refl eq_refl).
  vm_compute. reflexivity.
Defined.

(** A relayed 404 is of the third form: the upstream's own response. *)
Lemma response_forms_witness :
  result (handler route_fn_get_irc_configuration
            (module_globals Sample.environ) Sample.world_not_found
            Sample.request_table) =
    inr (func.mkHttpResponse "not found" 404 None)
  ∧ ∃ token resp,
      upstream_outcome Sample.world_not_found route_fn_get_irc_configuration
        Sample.request_table token = inr resp
      ∧ requests.is_error_status resp = true
      ∧ func.mkHttpResponse "not found" 404 None =
          func.mkHttpResponse (requests.text resp) (requests.status_code resp)
            None.
Proof.
  assert (result (handler route_fn_get_irc_configuration
                    (module_globals Sample.environ) Sample.world_not_found
                    Sample.request_table) =
            inr (func.mkHttpResponse "not found" 404 None)) as Hout
    by (vm_compute; reflexivity).
  split; [exact Hout |].
  destruct (response_forms route_fn_get_irc_configuration
              (module_globals Sample.environ) Sample.world_not_found
              Sample.request_table _ Hout)
    as [[_ Hform]
       | [(token & e & _ & Hget & _)
         | [(token & resp & _ & Hwhy & Hform)
           | (token & resp & tables & _ & _ & _ & _ & Hform)]]].
  - discriminate Hform.
  - discriminate Hget.
  - destruct Hwhy as [(e & Hget & _) | [[Hget Hstatus] | (Hget & Hok & _)]].
    + discriminate Hget.
    + by exists token, resp.
    + injection Hget as <-. discriminate Hok.
  - discriminate Hform.
Defined.

(** Listing namespaces ignores the [table] parameter. *)
Lemma unread_parameters_ignored_witness :
  Forall (λ k, func.params Sample.request_table !! k =
               func.params Sample.request_no_table !! k)
    (read_params route_fn_list_namespaces)
  ∧ handler route_fn_list_namespaces (module_globals Sample.environ)
      Sample.world_ok Sample.request_table =
    handler route_fn_list_namespaces (module_globals Sample.environ)
      Sample.world_ok Sample.request_no_table.
Proof.
  assert (Forall (λ k, func.params Sample.request_table !! k =
                       func.params Sample.request_no_table !! k)
            (read_params route_fn_list_namespaces)) as Hsame.
  { repeat constructor; vm_compute; reflexivity. }
  split; [exact Hsame |].
  exact (unread_parameters_ignored route_fn_list_namespaces
           (module_globals Sample.environ) Sample.world_ok
           Sample.request_table Sample.request_no_table Hsame).
Defined.

(** Configuring [ONELAKE_SCOPE] changes nothing for a handler. *)
Lemma environment_read_through_credentials_witness :
  Forall (λ k, Sample.environ !! k = Sample.environ_scoped !! k)
    credential_variables
  ∧ handler route_fn_read_tables (module_globals Sample.environ)
      Sample.world_ok Sample.request_table =
    handler route_fn_read_tables (module_globals Sample.environ_scoped)
      Sample.world_ok Sample.request_table.
Proof.
  assert (Forall (λ k, Sample.environ !! k = Sample.environ_scoped !! k)
            credential_variables) as Hsame.
  { repeat constructor; vm_compute; reflexivity. }
  split; [exact Hsame |].
  exact (environment_read_through_credentials route_fn_read_tables
           Sample.environ Sample.environ_scoped Sample.world_ok
           Sample.request_table Hsame).
Defined.

(** An empty environment: three log lines and 401. *)
Lemma unconfigured_401_witness :
  credentials_in ∅ = false
  ∧ handler route_fn_get_schema_details (module_globals ∅) Sample.world_ok
      Sample.request_table =
    ([Logged INFO "Python HTTP trigger function processed a request.";
      Logged WARNING
        ("Could not acquire OneLake token: " +:+ credentials_message);
      Logged ERROR "Token required for OneLake tables call but not available"],
     inr authentication_required).
Proof.
  split; [reflexivity |].
  exact (unconfigured_401 route_fn_get_schema_details ∅ Sample.world_ok
           Sample.request_table eq_refl).
Defined.

(** A plain-text 200 is relayed with the INFO line as only log. *)
Lemma success_logs_info_only_witness :
  (result (acquire_onelake_token (module_globals Sample.environ)
             Sample.world_text) = inr (Some "tok")
   ∧ upstream_outcome Sample.world_text route_fn_read_iceberg_catalog
       Sample.request_table "tok" = inr (requests.mkResponse 200 "hello")
   ∧ requests.is_error_status (requests.mkResponse 200 "hello") = false)
  ∧ log_lines
      (trace (handler route_fn_read_iceberg_catalog
                (module_globals Sample.environ) Sample.world_text
                Sample.request_table)) =
    [(INFO, "Python HTTP trigger function processed a request.")].
Proof.
  assert (result (acquire_onelake_token (module_globals Sample.environ)
                    Sample.world_text) = inr (Some "tok"))
    as Hacq by (vm_compute; reflexivity).
  split; [by repeat split |].
  exact (success_logs_info_only route_fn_read_iceberg_catalog
           (module_globals Sample.environ) Sample.world_text
           Sample.request_table "tok" (requests.mkResponse 200 "hello")
           Hacq eq_refl eq_refl).
Defined.
